(** * execution_engine2: SDKMethodRunner

    A shallow embedding of [lib/execution_engine2/SDKMethodRunner.py]:
    the admin-permission lookup, the [allow_job_read] / [allow_job_write]
    decorators, the job-status endpoints that forward to [ee2_status], and
    the static helper [_check_and_convert_time].

    Python values are a small tagged union, Python floats are IEEE binary64
    numbers ([spec_float] at precision 53), the two caches live in a heap of
    dictionaries addressed by location, and every method is a function in a
    state-and-exception monad over the world it runs in. *)

From Stdlib Require Import ZArith String Ascii List Bool Lia.
From Stdlib Require Import Floats.SpecFloat.
From stdpp Require Import base option gmap strings.

Local Open Scope string_scope.
Local Open Scope Z_scope.

(** ** Python values *)

(** [class JobPermissions(Enum)] *)
Inductive JobPermissions := READ | WRITE | NONE.

Definition JobPermissions_value (p : JobPermissions) : string :=
  match p with READ => "r" | WRITE => "w" | NONE => "n" end.

Definition JobPermissions_name (p : JobPermissions) : string :=
  match p with READ => "READ" | WRITE => "WRITE" | NONE => "NONE" end.

(** [str(member)], which is also what an f-string renders. *)
Definition JobPermissions_str (p : JobPermissions) : string :=
  "JobPermissions." ++ JobPermissions_name p.

#[global] Instance JobPermissions_eq_dec : EqDecision JobPermissions.
Proof. solve_decision. Defined.

(** A [datetime.datetime] object: its fields, and the UTC offset of its
    [tzinfo] in seconds when it has one. *)
Record datetime := mk_datetime {
  dt_year : Z; dt_month : Z; dt_day : Z;
  dt_hour : Z; dt_minute : Z; dt_second : Z; dt_microsecond : Z;
  dt_utcoffset : option Z
}.

(** Python [float]: IEEE 754 binary64. *)
Definition float := spec_float.
Definition float_prec : Z := 53.
Definition float_emax : Z := 1024.

Inductive PyVal :=
| PyNone
| PyBool (b : bool)
| PyInt (n : Z)
| PyFloat (f : float)
| PyStr (s : string)
| PyPerm (p : JobPermissions)
| PyDatetime (d : datetime).

(** [x is None] *)
Definition is_None (v : PyVal) : bool :=
  match v with PyNone => true | _ => false end.

(** [x is True] *)
Definition is_True (v : PyVal) : bool :=
  match v with PyBool true => true | _ => false end.

(** [x is JobPermissions.<p>]; [x == JobPermissions.<p>] is the same test,
    as a plain [Enum] member compares by identity. *)
Definition is_perm (v : PyVal) (p : JobPermissions) : bool :=
  match v with PyPerm q => bool_decide (q = p) | _ => false end.

(** [x in [p1, p2, ...]] for a list of enum members. *)
Definition py_in (v : PyVal) (ps : list JobPermissions) : bool :=
  existsb (is_perm v) ps.

(** [isinstance(x, int)]: [bool] is a subclass of [int]. *)
Definition int_value (v : PyVal) : option Z :=
  match v with
  | PyInt n => Some n
  | PyBool b => Some (if b then 1 else 0)
  | _ => None
  end.

(** ** Floats *)

(** Conversion of an [int] to a [float], rounded to nearest-even;
    [None] is [OverflowError: int too large to convert to float]. *)
Definition float_of_int (n : Z) : option float :=
  match binary_normalize float_prec float_emax n 0 false with
  | S754_finite s m e => Some (S754_finite s m e)
  | S754_zero s => Some (S754_zero s)
  | _ => None
  end.

(** A float literal with an integral value, such as [1000.0]. *)
Definition float_lit (n : Z) : float :=
  binary_normalize float_prec float_emax n 0 false.

(** [x / y] on floats. *)
Definition float_div (x y : float) : float := SFdiv float_prec float_emax x y.

(** [n / 1000.0] for an [int] [n]. *)
Definition int_div_1000 (n : Z) : option float :=
  x ← float_of_int n; Some (float_div x (float_lit 1000)).

(** The quotient [n / 10^k] of two naturals rounded once to the nearest
    float: the value of a decimal numeral with [k] fractional digits. *)
Definition float_of_decimal (n : Z) (k : nat) : float :=
  match n with
  | Zpos m =>
      SFdiv float_prec float_emax
        (S754_finite false m 0) (S754_finite false (Z.to_pos (10 ^ Z.of_nat k)) 0)
  | _ => S754_zero false
  end.

(** ** Strings

    A Python [str] is modelled by a [string] whose characters are the code
    points below 256. *)

Definition dot : ascii := "."%char.

(** [s.replace(".", "", 1)] *)
Fixpoint str_replace_dot_once (s : string) : string :=
  match s with
  | EmptyString => EmptyString
  | String c r => if Ascii.eqb c dot then r else String c (str_replace_dot_once r)
  end.

(** ["." in s] *)
Fixpoint str_contains_dot (s : string) : bool :=
  match s with
  | EmptyString => false
  | String c r => Ascii.eqb c dot || str_contains_dot r
  end.

(** The decimal digits ['0'] .. ['9']. *)
Definition digit_value (c : ascii) : option Z :=
  let n := Z.of_N (N_of_ascii c) in
  if (48 <=? n) && (n <=? 57) then Some (n - 48) else None.

(** [c.isdigit()]: the decimal digits and, below 256, the superscripts
    U+00B2, U+00B3 and U+00B9. *)
Definition char_isdigit (c : ascii) : bool :=
  let n := Z.of_N (N_of_ascii c) in
  ((48 <=? n) && (n <=? 57)) || (n =? 178) || (n =? 179) || (n =? 185).

Fixpoint str_all (p : ascii -> bool) (s : string) : bool :=
  match s with
  | EmptyString => true
  | String c r => p c && str_all p r
  end.

(** [s.isdigit()]: false on the empty string. *)
Definition str_isdigit (s : string) : bool :=
  match s with
  | EmptyString => false
  | _ => str_all char_isdigit s
  end.

Fixpoint digits_value (acc : Z) (s : string) : option Z :=
  match s with
  | EmptyString => Some acc
  | String c r => d ← digit_value c; digits_value (10 * acc + d) r
  end.

(** The interpreter's limit on the conversions between [int] and [str],
    [sys.get_int_max_str_digits()]: 4300 by default since CPython 3.11, and
    0 where there is no limit, as on older interpreters. *)
Class Interpreter := {
  int_max_str_digits : Z
}.

(** Numbers of up to 640 digits are converted without a look at the
    limit. *)
Definition INT_STR_DIGITS_THRESHOLD : Z := 640.

(** Whether a number of decimal digits is over the limit. *)
Definition over_digit_limit `{Interpreter} (digits : Z) : bool :=
  (0 <? int_max_str_digits)
  && (Z.max int_max_str_digits INT_STR_DIGITS_THRESHOLD <? digits).

(** [int(s)] on a string of digit characters; [None] is [ValueError]: the
    string has more digits than the limit, or one of them is no decimal
    (a superscript digit). *)
Definition py_int `{Interpreter} (s : string) : option Z :=
  if over_digit_limit (Z.of_nat (String.length s)) then None
  else digits_value 0 s.

(** Whether [str(n)] raises [ValueError]: [n] has more digits than the
    limit, that is, its magnitude is at least 10 to the power of the limit. *)
Definition int_str_raises `{Interpreter} (n : Z) : bool :=
  (0 <? int_max_str_digits)
  && (10 ^ Z.max int_max_str_digits INT_STR_DIGITS_THRESHOLD <=? Z.abs n).

(** The text before the first ['.'] and, if there is one, the text after it. *)
Fixpoint str_partition_dot (s : string) : string * option string :=
  match s with
  | EmptyString => (EmptyString, None)
  | String c r =>
      if Ascii.eqb c dot then (EmptyString, Some r)
      else let '(a, b) := str_partition_dot r in (String c a, b)
  end.

(** [float(s)] on a string of digit characters with at most one ['.'];
    [None] is [ValueError]. *)
Definition py_float (s : string) : option float :=
  let '(int_part, frac) := str_partition_dot s in
  let frac_part := default EmptyString frac in
  n ← digits_value 0 (int_part ++ frac_part);
  Some (float_of_decimal n (String.length frac_part)).

(** ** Exceptions and messages *)

(** A message is a literal, or a template whose [{}] is filled with
    [format(arg)]. *)
Inductive Message :=
| Msg (text : string)
| MsgFormat (template : string) (arg : PyVal).

Record PyExc := mk_exc { exc_class : string; exc_msg : Message }.

Definition ValueError (m : Message) : PyExc := mk_exc "ValueError" m.
Definition Exception_ (m : Message) : PyExc := mk_exc "Exception" m.
Definition UnboundLocalError (var : string) : PyExc :=
  mk_exc "UnboundLocalError"
    (Msg ("local variable '" ++ var ++ "' referenced before assignment")).

Inductive Res (A : Type) :=
| Return (a : A)
| Raise (e : PyExc).
Arguments Return {A} a.
Arguments Raise {A} e.

(** ** The world a method runs in *)

(** A cache is a dictionary; its keys are user or job identifiers, [None]
    being the Python [None].  Capacity and expiry are not modelled: no
    method below spans a time at which an entry could lapse. *)
Abbreviation Cache := (gmap (option string) PyVal).

(** Cache objects are addressed by location, so that two attributes may
    name the same object. *)
Abbreviation loc := positive.
Abbreviation Heap := (gmap loc Cache).

(** Calls that leave this module: methods of [ee2_status.JobsStatus], and
    [_test_job_permission_with_cache], an attribute the class body does not
    define and whose lookup is therefore left to the environment. *)
Inductive Call :=
| test_job_permission_with_cache (job_id : PyVal) (permission : JobPermissions)
| JobsStatus_check_job (job_id check_permission exclude_fields : PyVal)
| JobsStatus_update_job_status (job_id status : PyVal)
| JobsStatus_check_job_canceled (job_id as_admin : PyVal).

(** The collaborators: each call may read and change the caches and the
    collaborators' own state [Ext], and returns or raises. *)
Class Collaborators := {
  Ext : Type;
  invoke : Call -> Heap * Ext -> Res PyVal * (Heap * Ext)
}.

(** The host: [dateutil.parser.parse] ([None] when it raises),
    [datetime.timestamp()] ([None] when it raises) and whether
    [datetime.fromtimestamp] accepts a float. *)
Class Platform := {
  dateutil_parse : string -> option datetime;
  datetime_timestamp : datetime -> option float;
  fromtimestamp_ok : float -> bool
}.

Record SDKMethodRunner := mk_runner {
  user_id : option string;
  job_permission_cache : loc;
  roles_cache : loc
}.

Section Runner.
Context `{Collaborators}.

Record World := mk_world {
  heap : Heap;
  ext : Ext;
  _ee2_status : bool;     (* [self._ee2_status is not None] *)
  trace : list Call;      (* the calls made to the collaborators, oldest first *)
  log : list Message;     (* the records passed to [logging.info] *)
  clock : float           (* what [time.time()] reads *)
}.

Definition M (A : Type) : Type := World -> Res A * World.

#[global] Instance M_ret : MRet M := λ A a w, (Return a, w).
#[global] Instance M_bind : MBind M := λ A B f m w,
  match m w with
  | (Return a, w') => f a w'
  | (Raise e, w') => (Raise e, w')
  end.

Definition raise {A} (e : PyExc) : M A := λ w, (Raise e, w).

Definition cache_at (h : Heap) (l : loc) : Cache := default ∅ (h !! l).

(** [key in cache] *)
Definition cache_contains (l : loc) (key : option string) : M bool :=
  λ w, (Return (bool_decide (is_Some (cache_at (heap w) l !! key))), w).

(** [cache.get(key)] *)
Definition cache_get (l : loc) (key : option string) : M PyVal :=
  λ w, (Return (default PyNone (cache_at (heap w) l !! key)), w).

(** A call to a collaborator, appended to the trace. *)
Definition call (c : Call) : M PyVal := λ w,
  let '(r, (h, e)) := invoke c (heap w, ext w) in
  (r, mk_world h e (_ee2_status w) (trace w ++ [c]) (log w) (clock w)).

(** [logging.info(m)] *)
Definition logging_info (m : Message) : M unit := λ w,
  (Return tt, mk_world (heap w) (ext w) (_ee2_status w) (trace w) (log w ++ [m]) (clock w)).

(** [time.time()] *)
Definition time_time : M float := λ w, (Return (clock w), w).

(** Reading a local variable that may not have been assigned. *)
Definition load_local {A} (name : string) (v : option A) : M A :=
  match v with
  | Some a => mret a
  | None => raise (UnboundLocalError name)
  end.

(** *** Construction *)

(** Modelled from the spec: [ee2_cache.get_cache] is not among the
    sources.  The caches outlive any single runner and are shared by all of
    them, so a cache handed in is used as it is; without one a new, empty
    cache of the given capacity and lifetime is created. *)
Definition get_cache (cache : option loc) (size expire : Z) : M loc :=
  match cache with
  | Some l => mret l
  | None => λ w,
      let l := fresh (dom (heap w)) in
      (Return l, mk_world (<[l := ∅]> (heap w)) (ext w) (_ee2_status w)
                          (trace w) (log w) (clock w))
  end.

Definition JOB_PERMISSION_CACHE_SIZE : Z := 500.
Definition JOB_PERMISSION_CACHE_EXPIRE_TIME : Z := 300.
Definition ADMIN_READ_ROLE : string := "EE2_ADMIN_RO".
Definition ADMIN_WRITE_ROLE : string := "EE2_ADMIN".

(** [__init__], as far as identity and caches go; [admin_roles_cache] is
    accepted and unused. *)
Definition init (user : option string)
    (job_permission_cache_arg admin_roles_cache_arg roles_cache_arg : option loc)
    : M SDKMethodRunner :=
  jpc ← get_cache job_permission_cache_arg
          JOB_PERMISSION_CACHE_SIZE JOB_PERMISSION_CACHE_EXPIRE_TIME;
  rc ← get_cache roles_cache_arg
          JOB_PERMISSION_CACHE_SIZE JOB_PERMISSION_CACHE_EXPIRE_TIME;
  mret (mk_runner user jpc rc).

(** [get_jobs_status]: the handle is built on first use and kept; the
    constructor [ee2_status.JobsStatus] only wraps the runner. *)
Definition get_jobs_status (self : SDKMethodRunner) : M unit := λ w,
  if _ee2_status w then (Return tt, w)
  else (Return tt, mk_world (heap w) (ext w) true (trace w) (log w) (clock w)).

(** *** Permission decorators *)

(** A method as a decorator sees it: [func(self, *args, **kwargs)]. *)
Definition Method : Type :=
  SDKMethodRunner -> list PyVal -> gmap string PyVal -> M PyVal.

(** [kwargs.get(name)] *)
Definition kwargs_get (kwargs : gmap string PyVal) (name : string) : PyVal :=
  default PyNone (kwargs !! name).

Definition allow_job_read (func : Method) : Method := λ self args kwargs,
  let job_id := kwargs_get kwargs "job_id" in
  if is_None job_id then
    raise (ValueError (Msg "Please provide valid job_id"))
  else
    _ ← call (test_job_permission_with_cache job_id READ);
    func self args kwargs.

Definition allow_job_write (func : Method) : Method := λ self args kwargs,
  let job_id := kwargs_get kwargs "job_id" in
  if is_None job_id then
    raise (ValueError (Msg "Please provide valid job_id"))
  else
    _ ← call (test_job_permission_with_cache job_id WRITE);
    func self args kwargs.

(** *** Job management endpoints *)

Definition check_job (self : SDKMethodRunner)
    (job_id check_permission exclude_fields as_admin : PyVal) : M PyVal :=
  _ ← get_jobs_status self;
  call (JobsStatus_check_job job_id check_permission exclude_fields).

Definition update_job_status (self : SDKMethodRunner)
    (job_id status as_admin : PyVal) : M PyVal :=
  _ ← get_jobs_status self;
  call (JobsStatus_update_job_status job_id status).

Definition get_admin_permission (self : SDKMethodRunner)
    (requested_permission : PyVal) : M bool :=
  hit ← cache_contains (job_permission_cache self) (user_id self);
  permission ←
    (if hit : bool then
       v ← cache_get (job_permission_cache self) (user_id self); mret (Some v)
     else mret None);
  if is_perm requested_permission READ then
    p ← load_local "permission" permission;
    if py_in p [READ; WRITE] then mret true else mret false
  else if is_perm requested_permission WRITE then
    p ← load_local "permission" permission;
    mret (py_in p [WRITE])
  else raise (Exception_ (Msg "Programming Error! Something went wrong here.")).

Definition check_job_canceled (self : SDKMethodRunner)
    (job_id as_admin : PyVal) : M PyVal :=
  _ ← (if is_True as_admin then
         ok ← get_admin_permission self (PyPerm READ);
         if negb ok then
           raise (Exception_ (Msg
             ("You are not permitted to cancel this job. Required permission="
                +:+ JobPermissions_str READ)))
         else mret tt
       else mret tt);
  _ ← get_jobs_status self;
  call (JobsStatus_check_job_canceled job_id as_admin).

(** *** Helper: timestamps *)

Context `{Interpreter} `{Platform}.

(** How the [try] block is left: normally or by an exception, with the
    value the variable [time_input] holds at that point. *)
Inductive TryExit :=
| Completed (time_input : PyVal)
| Raised (time_input : PyVal).

(** [time_input = <rhs>]: the assignment happens only if the right-hand
    side evaluates. *)
Definition assign (time_input : PyVal) (rhs : option float) : TryExit :=
  match rhs with
  | Some f => Completed (PyFloat f)
  | None => Raised time_input
  end.

(** [datetime.fromtimestamp(x)] returns (its result is dropped) rather than
    raises; only numbers are accepted. *)
Definition fromtimestamp_accepts (x : PyVal) : bool :=
  match x with
  | PyFloat f => fromtimestamp_ok f
  | PyInt _ | PyBool _ =>
      match int_value x ≫= float_of_int with
      | Some f => fromtimestamp_ok f
      | None => false
      end
  | _ => false
  end.

(** The branches that turn [time_input] into epoch seconds. *)
Definition convert (time_input : PyVal) : TryExit :=
  match time_input with
  | PyStr s =>
      if str_isdigit (str_replace_dot_once s) then
        assign time_input
          (if str_contains_dot s then py_float s
           else py_int s ≫= int_div_1000)
      else
        assign time_input (dateutil_parse s ≫= datetime_timestamp)
  | PyInt _ | PyBool _ =>
      assign time_input (int_value time_input ≫= int_div_1000)
  | PyDatetime d =>
      assign time_input (datetime_timestamp d)
  | _ => Completed time_input
  end.

(** The whole [try] block: the conversion, then the check that the value
    is a point in time. *)
Definition try_block (time_input : PyVal) : TryExit :=
  match convert time_input with
  | Completed v => if fromtimestamp_accepts v then Completed v else Raised v
  | Raised v => Raised v
  end.

Definition cannot_convert (time_input : PyVal) : Message :=
  MsgFormat "Cannot convert time_input into timestamps: {}" time_input.

(** The error of [str(n)] on an integer over the digit limit. *)
Definition int_str_limit_error : PyExc :=
  ValueError (MsgFormat
    "Exceeds the limit ({} digits) for integer string conversion; use sys.set_int_max_str_digits() to increase the limit"
    (PyInt int_max_str_digits)).

(** Whether ["...{}".format(time_input)] raises: only an integer over the
    digit limit cannot be rendered. *)
Definition format_raises (time_input : PyVal) : bool :=
  match time_input with
  | PyInt n => int_str_raises n
  | _ => false
  end.

(** ["Cannot convert time_input into timestamps: {}".format(time_input)] *)
Definition format_cannot_convert (time_input : PyVal) : M Message :=
  if format_raises time_input then raise int_str_limit_error
  else mret (cannot_convert time_input).

Definition _check_and_convert_time (time_input : PyVal)
    (assign_default_time : bool) : M PyVal :=
  match try_block time_input with
  | Completed v => mret v
  | Raised v =>
      if assign_default_time then
        m ← format_cannot_convert v;
        _ ← logging_info m;
        t ← time_time;
        mret (PyFloat t)
      else
        m ← format_cannot_convert v;
        raise (ValueError m)
  end.

End Runner.

(** *** Vocabulary of the statements *)

(** What the job-permission cache of [self] holds for its user. *)
Definition cached `{Collaborators} (self : SDKMethodRunner) (w : World)
    : option PyVal :=
  cache_at (heap w) (job_permission_cache self) !! user_id self.

(** The errors raised by name. *)
Definition programming_error : PyExc :=
  Exception_ (Msg "Programming Error! Something went wrong here.").

Definition missing_job_id : PyExc :=
  ValueError (Msg "Please provide valid job_id").

Definition not_permitted_to_cancel : PyExc :=
  Exception_ (Msg
    "You are not permitted to cancel this job. Required permission=JobPermissions.READ").

(** The world once [get_jobs_status] has built its handle. *)
Definition with_jobs_status `{Collaborators} (w : World) : World :=
  mk_world (heap w) (ext w) true (trace w) (log w) (clock w).

Definition is_decimal (c : ascii) : bool :=
  match digit_value c with Some _ => true | None => false end.

(** A string that is all decimal digits once at most one ['.'] is removed. *)
Definition numeric_string (s : string) : bool :=
  match str_replace_dot_once s with
  | EmptyString => false
  | r => str_all is_decimal r
  end.

(** The world after one more record was logged. *)
Definition logged `{Collaborators} (m : Message) (w : World) : World :=
  mk_world (heap w) (ext w) (_ee2_status w) (trace w) (log w ++ [m])%list (clock w).

(** [True / 1000.0] and [False / 1000.0]. *)
Definition bool_seconds (b : bool) : float :=
  float_div (float_lit (if b then 1 else 0)) (float_lit 1000).

(** ** Reference environments

    Concrete collaborators and a concrete host, on which the model can be
    run.  The statements further down hold for every environment; these
    instances serve to evaluate them. *)

(** Collaborators that keep no state and answer every call with [None]. *)
Definition quiet_collaborators : Collaborators :=
  {| Ext := unit; invoke := λ _ st, (Return PyNone, st) |}.

Module UTCHost.

(** [floor x] of a finite float; [None] for infinities and NaN. *)
Definition float_floor (x : float) : option Z :=
  match x with
  | S754_zero _ => Some 0
  | S754_finite s m e =>
      let n := if s then Z.neg m else Z.pos m in
      Some (if 0 <=? e then n * 2 ^ e else n / 2 ^ (- e))
  | _ => None
  end.

(** Seconds since the epoch of 0001-01-02T00:00:00 and 9999-12-31T23:59:59. *)
Definition min_seconds : Z := -62135510400.
Definition max_seconds : Z := 253402300799.

(** [datetime.fromtimestamp] with a local zone at UTC: the instant must
    fall in the years 1 to 9999, and so must the instant one day earlier,
    which the call inspects to detect a repeated local hour. *)
Definition fromtimestamp_ok (x : float) : bool :=
  match float_floor x with
  | Some secs => (min_seconds <=? secs) && (secs <=? max_seconds)
  | None => false
  end.

(** Days from 1970-01-01 to a date of the proleptic Gregorian calendar. *)
Definition days_from_civil (y m d : Z) : Z :=
  let y' := if m <=? 2 then y - 1 else y in
  let era := y' / 400 in
  let yoe := y' - era * 400 in
  let doy := (153 * (if 2 <? m then m - 3 else m + 9) + 2) / 5 + d - 1 in
  let doe := yoe * 365 + yoe / 4 - yoe / 100 + doy in
  era * 146097 + doe - 719468.

Definition float_add (x y : float) : float := SFadd float_prec float_emax x y.

(** An integer quotient rounded once, as [int / int] does. *)
Definition float_of_ratio (n : Z) (d : positive) : float :=
  match n with
  | Z0 => S754_zero false
  | Zpos m => SFdiv float_prec float_emax (S754_finite false m 0) (S754_finite false d 0)
  | Zneg m => SFdiv float_prec float_emax (S754_finite true m 0) (S754_finite false d 0)
  end.

(** [d.timestamp()]: an aware value is the difference to the epoch as
    [total_seconds()]; a naive one is read in the local zone, here UTC. *)
Definition datetime_timestamp (d : datetime) : option float :=
  let secs := days_from_civil (dt_year d) (dt_month d) (dt_day d) * 86400
              + dt_hour d * 3600 + dt_minute d * 60 + dt_second d in
  match dt_utcoffset d with
  | Some off =>
      Some (float_of_ratio ((secs - off) * 1000000 + dt_microsecond d) 1000000)
  | None =>
      Some (float_add (float_lit secs)
              (float_div (float_lit (dt_microsecond d)) (float_lit 1000000)))
  end.

Definition is_leap (y : Z) : bool :=
  ((y mod 4 =? 0) && negb (y mod 100 =? 0)) || (y mod 400 =? 0).

Definition days_in_month (y m : Z) : Z :=
  if m =? 2 then (if is_leap y then 29 else 28)
  else if (m =? 4) || (m =? 6) || (m =? 9) || (m =? 11) then 30
  else 31.

Definition digits (cs : list ascii) : option Z :=
  digits_value 0 (string_of_list_ascii cs).

(** The one calendar format this host's parser knows,
    [YYYY-MM-DDTHH:MM:SSZ]; [dateutil] reads many more. *)
Definition dateutil_parse (s : string) : option datetime :=
  match list_ascii_of_string s with
  | [y1; y2; y3; y4; "-"; m1; m2; "-"; d1; d2; "T";
     h1; h2; ":"; n1; n2; ":"; s1; s2; "Z"]%char =>
      y ← digits [y1; y2; y3; y4];
      m ← digits [m1; m2];
      d ← digits [d1; d2];
      h ← digits [h1; h2];
      n ← digits [n1; n2];
      sec ← digits [s1; s2];
      if (1 <=? y) && (1 <=? m) && (m <=? 12) && (1 <=? d)
         && (d <=? days_in_month y m) && (h <? 24) && (n <? 60) && (sec <? 60)
      then Some (mk_datetime y m d h n sec 0 (Some 0))
      else None
  | _ => None
  end.

End UTCHost.

(** CPython 3.11 with its default limit of 4300 digits. *)
Definition cpython_3_11 : Interpreter := {| int_max_str_digits := 4300 |}.

(** The string of [n] zeros. *)
Fixpoint zeros (n : nat) : string :=
  match n with
  | O => EmptyString
  | S k => String "0"%char (zeros k)
  end.

Definition utc_host : Platform :=
  {| dateutil_parse := UTCHost.dateutil_parse;
     datetime_timestamp := UTCHost.datetime_timestamp;
     fromtimestamp_ok := UTCHost.fromtimestamp_ok |}.

(** A world with no cache, no call made yet, and the clock at
    2021-01-07T06:13:20Z. *)
Definition empty_world : @World quiet_collaborators :=
  @mk_world quiet_collaborators ∅ tt false [] [] (float_lit 1610000000).

(** The runner that [__init__] builds for user ["alice"] in the empty
    world: its caches are the first two objects allocated. *)
Definition alice : SDKMethodRunner := mk_runner (Some "alice") 1 2.

(** The world in which alice's job-permission cache and roles cache hold
    the given entries. *)
Definition world_of (job_permissions roles : Cache) : @World quiet_collaborators :=
  @mk_world quiet_collaborators
    {[ 1%positive := job_permissions; 2%positive := roles ]}
    tt false [] [] (float_lit 1610000000).

(** A method that does nothing, to put behind a gate. *)
Definition noop : @Method quiet_collaborators := λ _ _ _, mret PyNone.

(** ** More of the module *)

(** *** [parse_bool_from_string] *)

(** [c.lower()] on the code points below 256: the capitals A-Z and
    U+00C0..U+00DE, the multiplication sign U+00D7 apart. *)
Definition char_lower (c : ascii) : ascii :=
  let n := Z.of_N (N_of_ascii c) in
  if ((65 <=? n) && (n <=? 90))
     || ((192 <=? n) && (n <=? 222) && negb (n =? 215))
  then ascii_of_N (Z.to_N (n + 32)) else c.

(** [s.lower()] *)
Fixpoint str_lower (s : string) : string :=
  match s with
  | EmptyString => EmptyString
  | String c r => String (char_lower c) (str_lower r)
  end.

(** The white space of JSON: space, tab, line feed, carriage return. *)
Definition json_space (c : ascii) : bool :=
  let n := Z.of_N (N_of_ascii c) in
  (n =? 32) || (n =? 9) || (n =? 10) || (n =? 13).

Fixpoint str_lstrip (p : ascii -> bool) (s : string) : string :=
  match s with
  | EmptyString => EmptyString
  | String c r => if p c then str_lstrip p r else s
  end.

Fixpoint str_rstrip (p : ascii -> bool) (s : string) : string :=
  match s with
  | EmptyString => EmptyString
  | String c r =>
      match str_rstrip p r with
      | EmptyString => if p c then EmptyString else String c EmptyString
      | r' => String c r'
      end
  end.

Definition json_strip (s : string) : string :=
  str_rstrip json_space (str_lstrip json_space s).

(** What [json.loads] returns, as far as [isinstance(_, bool)] can tell. *)
Inductive JsonVal :=
| JBool (b : bool)
| JOther.

(** The JSON grammar beyond the two boolean literals: on any other text
    [json.loads] returns some value that is no boolean, or raises
    [JSONDecodeError]. *)
Class JsonLib := {
  json_loads_other : string -> Res unit
}.

(** [json.loads(s)]: a boolean exactly for the literal [true] or [false]
    between optional white space. *)
Definition json_loads `{JsonLib} (s : string) : Res JsonVal :=
  if String.eqb (json_strip s) "true" then Return (JBool true)
  else if String.eqb (json_strip s) "false" then Return (JBool false)
  else match json_loads_other s with
       | Return _ => Return JOther
       | Raise e => Raise e
       end.

(** [type(v).__name__] as error messages spell it. *)
Definition type_name (v : PyVal) : string :=
  match v with
  | PyNone => "NoneType"
  | PyBool _ => "bool"
  | PyInt _ => "int"
  | PyFloat _ => "float"
  | PyStr _ => "str"
  | PyPerm _ => "JobPermissions"
  | PyDatetime _ => "datetime.datetime"
  end.

Definition AttributeError (v : PyVal) (attr : string) : PyExc :=
  mk_exc "AttributeError"
    (Msg ("'" +:+ type_name v +:+ "' object has no attribute '" +:+ attr +:+ "'")).

Definition not_a_boolean : PyExc := Exception_ (Msg "Not a boolean value").

(** The two calls of [json.loads] on the same text are one evaluation. *)
Definition parse_bool_from_string `{JsonLib} (str_or_bool : PyVal) : Res PyVal :=
  match str_or_bool with
  | PyBool _ => Return str_or_bool
  | PyInt _ => Return str_or_bool
  | PyStr s =>
      match json_loads (str_lower s) with
      | Return (JBool b) => Return (PyBool b)
      | Return JOther => Raise not_a_boolean
      | Raise e => Raise e
      end
  | _ => Raise (AttributeError str_or_bool "lower")
  end.

(** *** [_set_log_level] *)

(** [bool(v)] *)
Definition py_truthy (v : PyVal) : bool :=
  match v with
  | PyNone => false
  | PyBool b => b
  | PyInt n => negb (n =? 0)
  | PyFloat (S754_zero _) => false
  | PyFloat _ => true
  | PyStr EmptyString => false
  | PyStr _ => true
  | PyPerm _ => true
  | PyDatetime _ => true
  end.

(** A [logging.StreamHandler]: its level and the format of its formatter. *)
Record Handler := mk_handler { handler_level : Z; handler_format : string }.

Definition logging_WARN : Z := 30.
Definition logging_DEBUG : Z := 10.
Definition log_format : string := "%(created)s %(levelname)s: %(message)s".

(** [_set_log_level]: [ee2] is the list of handlers of the process-wide
    logger [logging.getLogger("ee2")], [debug] is [self.debug]. *)
Definition _set_log_level (debug : PyVal) (ee2 : list Handler) : list Handler :=
  (ee2 ++ [mk_handler (if py_truthy debug then logging_DEBUG else logging_WARN)
                      log_format])%list.

(** Lines 77 and 78 of [__init__]: [self.debug] is read from the
    configuration, then the logger is set up. *)
Definition init_logging `{JsonLib} (config : gmap string PyVal)
    (ee2 : list Handler) : Res PyVal * list Handler :=
  match parse_bool_from_string (kwargs_get config "debug") with
  | Return debug => (Return debug, _set_log_level debug ee2)
  | Raise e => (Raise e, ee2)
  end.

(** The logger after runners were constructed, one per configuration. *)
Definition init_logging_all `{JsonLib} (configs : list (gmap string PyVal))
    (ee2 : list Handler) : list Handler :=
  fold_left (λ lg config, snd (init_logging config lg)) configs ee2.

(** The handler a configuration contributes, if its debug entry parses. *)
Definition handler_of_config `{JsonLib} (config : gmap string PyVal)
    : option Handler :=
  match parse_bool_from_string (kwargs_get config "debug") with
  | Return debug =>
      Some (mk_handler (if py_truthy debug then logging_DEBUG else logging_WARN)
                       log_format)
  | Raise _ => None
  end.

(** *** The clients a runner loads on demand *)

Module Clients.

Inductive ClientClass :=
| MongoUtil | Condor | Workspace | WorkspaceAuth | RunJob | JobLog | JobStatusRange.

#[global] Instance ClientClass_eq_dec : EqDecision ClientClass.
Proof. solve_decision. Defined.

(** The client attributes of a runner, an attribute that is [None] being
    left out, and the clients constructed so far, oldest first. *)
Record Instance := mk_instance {
  attrs : gmap string ClientClass;
  constructed : list ClientClass
}.

(** [__init__] sets every client attribute to [None]. *)
Definition fresh_instance : Instance := mk_instance ∅ [].

(** The shape shared by the accessors:
    [if self.<attr> is None: self.<attr> = <cls>(...)] and
    [return self.<attr>].  [outcome] is what the constructor does if it is
    called: [None] when it returns, the exception when it raises. *)
Definition on_demand (attr : string) (cls : ClientClass)
    (outcome : option PyExc) (self : Instance) : Res ClientClass * Instance :=
  match attrs self !! attr with
  | Some client => (Return client, self)
  | None =>
      match outcome with
      | None =>
          (Return cls,
           mk_instance (<[attr := cls]> (attrs self)) (constructed self ++ [cls]))
      | Some e => (Raise e, self)
      end
  end.

Definition get_jobs_status_range := on_demand "_ee2_status_range" JobStatusRange.
Definition get_job_logs := on_demand "_ee2_logs" JobLog.
Definition get_runjob := on_demand "_ee2_runjob" RunJob.
Definition get_workspace_auth := on_demand "workspace_auth" WorkspaceAuth.
Definition get_mongo_util := on_demand "mongo_util" MongoUtil.
Definition get_condor := on_demand "condor" Condor.
Definition get_workspace := on_demand "workspace" Workspace.

(** The accessors by name, to speak of sequences of calls. *)
Inductive Accessor :=
| Get_jobs_status_range | Get_job_logs | Get_runjob | Get_workspace_auth
| Get_mongo_util | Get_condor | Get_workspace.

#[global] Instance Accessor_eq_dec : EqDecision Accessor.
Proof. solve_decision. Defined.

Definition access (a : Accessor)
    : option PyExc -> Instance -> Res ClientClass * Instance :=
  match a with
  | Get_jobs_status_range => get_jobs_status_range
  | Get_job_logs => get_job_logs
  | Get_runjob => get_runjob
  | Get_workspace_auth => get_workspace_auth
  | Get_mongo_util => get_mongo_util
  | Get_condor => get_condor
  | Get_workspace => get_workspace
  end.

Definition attr_of (a : Accessor) : string :=
  match a with
  | Get_jobs_status_range => "_ee2_status_range"
  | Get_job_logs => "_ee2_logs"
  | Get_runjob => "_ee2_runjob"
  | Get_workspace_auth => "workspace_auth"
  | Get_mongo_util => "mongo_util"
  | Get_condor => "condor"
  | Get_workspace => "workspace"
  end.

Definition class_of (a : Accessor) : ClientClass :=
  match a with
  | Get_jobs_status_range => JobStatusRange
  | Get_job_logs => JobLog
  | Get_runjob => RunJob
  | Get_workspace_auth => WorkspaceAuth
  | Get_mongo_util => MongoUtil
  | Get_condor => Condor
  | Get_workspace => Workspace
  end.

(** A sequence of accessor calls, each with the outcome its constructor
    would have. *)
Definition run (calls : list (Accessor * option PyExc)) (self : Instance)
    : Instance :=
  fold_left (λ o c, snd (access c.1 c.2 o)) calls self.

(** The state of a runner that only its accessors have touched: every
    client attribute that is set holds the client of its accessor, it is set
    exactly if that client was constructed, and no client was constructed
    twice. *)
Definition consistent (self : Instance) : Prop :=
  NoDup (constructed self)
  /\ forall a c, attrs self !! attr_of a = Some c
                 <-> c = class_of a /\ class_of a ∈ constructed self.

End Clients.

(** *** [check_jobs_for_finish_times.py] *)

Module FinishTimes.

(** What the script imports from [models]: [valid_status] ([false] when
    it raises) and the [value] of four members of [Status]. *)
Class Models := {
  valid_status : PyVal -> bool;
  Status_error : string;
  Status_completed : string;
  Status_terminated : string;
  Status_running : string
}.

(** A job document. *)
Abbreviation Job := (gmap string PyVal).

(** [v in [s1, s2, ...]] for a list of strings. *)
Definition in_strings (v : PyVal) (l : list string) : bool :=
  match v with
  | PyStr s => existsb (String.eqb s) l
  | _ => false
  end.

Definition KeyError (key : string) : PyExc :=
  mk_exc "KeyError" (Msg ("'" +:+ key +:+ "'")).

(** [Exception(job_id)] *)
Definition invalid_status (job_id : PyVal) : PyExc :=
  Exception_ (MsgFormat "{}" job_id).

(** [Exception("End time is NONE", job_id)] *)
Definition end_time_missing (job_id : PyVal) : PyExc :=
  Exception_ (MsgFormat "('End time is NONE', {!r})" job_id).

(** [Exception("End run_time is NONE", job_id)] *)
Definition run_time_missing (job_id : PyVal) : PyExc :=
  Exception_ (MsgFormat "('End run_time is NONE', {!r})" job_id).

(** [print(f"Processed {count} records")] *)
Definition progress (count : Z) : Message :=
  MsgFormat "Processed {} records" (PyInt count).

Section Script.
Context `{Models}.

(** One turn of the loop, [count] already incremented: the lines printed
    and, if the turn raises, the exception. *)
Definition loop_body (count : Z) (job : Job) : list Message * option PyExc :=
  match job !! "_id" with
  | None => ([], Some (KeyError "_id"))
  | Some job_id =>
      match job !! "status" with
      | None => ([], Some (KeyError "status"))
      | Some status =>
          if negb (valid_status status) then ([], Some (invalid_status job_id))
          else
            let printed := if count mod 500 =? 0 then [progress count] else [] in
            if in_strings status [Status_error; Status_completed; Status_terminated]
               && is_None (kwargs_get job "finished")
            then (printed, Some (end_time_missing job_id))
            else if in_strings status [Status_running]
                    && is_None (kwargs_get job "running")
            then (printed, Some (run_time_missing job_id))
            else (printed, None)
      end
  end.

(** The loop over [ee2_jobs.find()], entered with [count] records seen. *)
Fixpoint loop (count : Z) (ee2_jobs : list Job) : list Message * option PyExc :=
  match ee2_jobs with
  | [] => ([], None)
  | job :: rest =>
      let count := count + 1 in
      match loop_body count job with
      | (printed, Some e) => (printed, Some e)
      | (printed, None) =>
          let '(more, r) := loop count rest in ((printed ++ more)%list, r)
      end
  end.

(** The script: all it prints, and the exception it ends in, if any. *)
Definition script (ee2_jobs : list Job) : list Message * option PyExc :=
  loop 0 ee2_jobs.

(** A job on which a turn of the loop does not raise. *)
Definition job_ok (job : Job) : bool :=
  match job !! "_id", job !! "status" with
  | Some _, Some status =>
      valid_status status
      && negb (in_strings status [Status_error; Status_completed; Status_terminated]
               && is_None (kwargs_get job "finished"))
      && negb (in_strings status [Status_running]
               && is_None (kwargs_get job "running"))
  | _, _ => false
  end.

End Script.
End FinishTimes.

(** *** Further reference environments *)

(** A JSON reader that, beyond the boolean literals, knows [null] alone. *)
Definition json_null_only : JsonLib :=
  {| json_loads_other := λ s,
       if String.eqb (json_strip s) "null" then Return tt
       else Raise (mk_exc "JSONDecodeError" (Msg "Expecting value")) |}.

(** The host when [dateutil.parser] was never imported: the attribute
    lookup [dateutil.parser] raises on every string. *)
Definition utc_host_no_parser : Platform :=
  {| dateutil_parse := λ _, None;
     datetime_timestamp := UTCHost.datetime_timestamp;
     fromtimestamp_ok := UTCHost.fromtimestamp_ok |}.

(** The statuses of [models.Status], every string being taken as valid
    but ["finished"]. *)
Definition ee2_models : FinishTimes.Models :=
  {| FinishTimes.valid_status := λ v,
       match v with
       | PyStr s => negb (String.eqb s "finished")
       | _ => false
       end;
     FinishTimes.Status_error := "error";
     FinishTimes.Status_completed := "completed";
     FinishTimes.Status_terminated := "terminated";
     FinishTimes.Status_running := "running" |}.

(** A job document with the given id and status and, if given, a
    [finished] time. *)
Definition job_doc (id status : string) (finished : option PyVal)
    : gmap string PyVal :=
  let base : gmap string PyVal :=
    {[ "_id" := PyStr id; "status" := PyStr status ]} in
  match finished with
  | Some t => <[ "finished" := t ]> base
  | None => base
  end.

(** Collaborators whose permission test refuses every job. *)
Definition permission_denied : PyExc :=
  mk_exc "PermissionError" (Msg "User does not have permission").

Definition strict_collaborators : Collaborators :=
  {| Ext := unit;
     invoke := λ c st,
       match c with
       | test_job_permission_with_cache _ _ => (Raise permission_denied, st)
       | _ => (Return PyNone, st)
       end |}.

Definition strict_world : @World strict_collaborators :=
  @mk_world strict_collaborators ∅ tt false [] [] (float_lit 1610000000).

(** A method that does nothing, for any collaborators. *)
Definition do_nothing `{Collaborators} : Method := λ _ _ _, mret PyNone.

(** The one-character string U+00B2, a superscript two. *)
Definition superscript_two : string := String (ascii_of_N 178) EmptyString.

(** ** The admin-permission lookup *)

Section AdminPermission.
Context `{Collaborators}.
Implicit Types (self : SDKMethodRunner) (w : World) (p : JobPermissions).

(** The lookup as one case analysis on the cache entry and the request. *)
Lemma get_admin_permission_unfold self req w :
  get_admin_permission self req w =
    (if is_perm req READ then
       match cached self w with
       | Some v => Return (py_in v [READ; WRITE])
       | None => Raise (UnboundLocalError "permission")
       end
     else if is_perm req WRITE then
       match cached self w with
       | Some v => Return (py_in v [WRITE])
       | None => Raise (UnboundLocalError "permission")
       end
     else Raise programming_error, w).
Proof.
  unfold get_admin_permission, cached, cache_contains, cache_get.
  unfold mbind, M_bind, mret, M_ret, load_local, raise.
  destruct (cache_at (heap w) (job_permission_cache self) !! user_id self)
    as [v|] eqn:E; simpl.
  - destruct (is_perm req READ); simpl.
    + rewrite E; simpl.
      by destruct (is_perm v READ || (is_perm v WRITE || false)).
    + destruct (is_perm req WRITE); [by rewrite E | done].
  - destruct (is_perm req READ); [done|]. by destruct (is_perm req WRITE).
Qed.

(** The lookup changes nothing: no cache is written, no collaborator is
    called. *)
Lemma get_admin_permission_world self req w :
  snd (get_admin_permission self req w) = w.
Proof. by rewrite get_admin_permission_unfold. Qed.

(** The lookup is decided by the entry of the job-permission cache alone:
    worlds that agree on it, however else they differ, answer alike. *)
Lemma get_admin_permission_only_job_cache self req w w' :
  cached self w = cached self w' ->
  fst (get_admin_permission self req w) = fst (get_admin_permission self req w').
Proof. intros Heq. by rewrite !get_admin_permission_unfold, Heq. Qed.

(** C1.  When the caller is absent from the cache consulted by
    [get_admin_permission], a READ or WRITE request does reach the
    comparison with the local [permission] never assigned: the call ends in
    [UnboundLocalError], and nothing was fetched on the way (the world,
    trace of collaborator calls included, is as before). *)
Theorem get_admin_permission_miss_unbound self w :
  cached self w = None ->
  get_admin_permission self (PyPerm READ) w
    = (Raise (UnboundLocalError "permission"), w)
  /\ get_admin_permission self (PyPerm WRITE) w
    = (Raise (UnboundLocalError "permission"), w).
Proof.
  intros Hmiss. rewrite !get_admin_permission_unfold, Hmiss. done.
Qed.

(** C2.  The admin lookup reads the job-permission cache, not
    [roles_cache]: with two distinct cache objects, an entry stored for the
    user in the job-permission cache alone decides the admin check, whatever
    [roles_cache] holds. *)
Theorem admin_lookup_reads_job_permission_cache self w p :
  job_permission_cache self <> roles_cache self ->
  cache_at (heap w) (job_permission_cache self) !! user_id self = Some (PyPerm p) ->
  cache_at (heap w) (roles_cache self) !! user_id self = None ->
  get_admin_permission self (PyPerm READ) w
    = (Return (bool_decide (p <> NONE)), w).
Proof.
  intros _ Hjob _. rewrite get_admin_permission_unfold.
  unfold cached. rewrite Hjob. by destruct p.
Qed.

(** C3.  A request for no level, be it Python's [None] or
    [JobPermissions.NONE], raises the programming error whatever the cache
    holds for the caller; no boolean is returned. *)
Theorem get_admin_permission_None_raises self w :
  get_admin_permission self PyNone w = (Raise programming_error, w)
  /\ get_admin_permission self (PyPerm NONE) w = (Raise programming_error, w).
Proof. by rewrite !get_admin_permission_unfold. Qed.

(** C4.  With level [p] resolved for the caller, a READ request is granted
    exactly when [p] is not NONE and a WRITE request exactly when [p] is
    WRITE. *)
Theorem get_admin_permission_satisfies self w p :
  cached self w = Some (PyPerm p) ->
  get_admin_permission self (PyPerm READ) w = (Return (bool_decide (p <> NONE)), w)
  /\ get_admin_permission self (PyPerm WRITE) w = (Return (bool_decide (p = WRITE)), w).
Proof.
  intros Hhit. rewrite !get_admin_permission_unfold, Hhit. by destruct p.
Qed.

End AdminPermission.

(** ** Gates and endpoints *)

Section Endpoints.
Context `{Collaborators}.
Implicit Types (self : SDKMethodRunner) (w : World).

Lemma get_jobs_status_run self w :
  get_jobs_status self w = (Return tt, with_jobs_status w).
Proof.
  unfold get_jobs_status, with_jobs_status.
  destruct w as [h e built t l c]; simpl. by destruct built.
Qed.

Lemma call_trace c w : trace (snd (call c w)) = (trace w ++ [c])%list.
Proof.
  unfold call. by destruct (invoke c (heap w, ext w)) as [r [h e]].
Qed.

(** [check_job_canceled] under [as_admin=True], by the outcome of the
    admin check. *)
Lemma check_job_canceled_admin_run self job_id w r :
  get_admin_permission self (PyPerm READ) w = (r, w) ->
  check_job_canceled self job_id (PyBool true) w =
    match r with
    | Return true =>
        call (JobsStatus_check_job_canceled job_id (PyBool true))
             (with_jobs_status w)
    | Return false => (Raise not_permitted_to_cancel, w)
    | Raise e => (Raise e, w)
    end.
Proof.
  intros Hr. unfold check_job_canceled. cbn [is_True].
  unfold mbind, M_bind. cbv beta. rewrite Hr.
  destruct r as [[|]|e]; simpl; try done.
  by rewrite get_jobs_status_run.
Qed.

(** C5.  Under [as_admin=True], [check_job_canceled] asks for the READ
    admin level only.  If the admin check answers true, the very next step
    is the delegated [check_job_canceled] of the job-status subsystem, the
    only collaborator call made: no job-permission check comes first.  If it
    answers false, the method raises an error that names
    [JobPermissions.READ] and nothing is delegated. *)
Theorem check_job_canceled_as_admin self job_id w :
  (fst (get_admin_permission self (PyPerm READ) w) = Return true ->
     check_job_canceled self job_id (PyBool true) w
       = call (JobsStatus_check_job_canceled job_id (PyBool true))
              (with_jobs_status w)
     /\ trace (snd (check_job_canceled self job_id (PyBool true) w))
       = (trace w ++ [JobsStatus_check_job_canceled job_id (PyBool true)])%list)
  /\ (fst (get_admin_permission self (PyPerm READ) w) = Return false ->
     check_job_canceled self job_id (PyBool true) w
       = (Raise not_permitted_to_cancel, w)).
Proof.
  pose proof (check_job_canceled_admin_run self job_id w) as Hrun.
  pose proof (get_admin_permission_world self (PyPerm READ) w) as Hw.
  destruct (get_admin_permission self (PyPerm READ) w) as [r w'].
  simpl in Hw; subst w'. specialize (Hrun r eq_refl).
  split; simpl; intros ->; rewrite Hrun; [|done].
  split; [done|]. by rewrite call_trace.
Qed.

(** C9.  Without a [job_id] keyword argument both gates raise
    [ValueError] at once: the permission check is not called, the wrapped
    function is not called, the world is untouched. *)
Theorem gates_require_job_id (func : Method) self args
    (kwargs : gmap string PyVal) w :
  kwargs !! "job_id" = None ->
  allow_job_read func self args kwargs w = (Raise missing_job_id, w)
  /\ allow_job_write func self args kwargs w = (Raise missing_job_id, w).
Proof.
  intros Habsent. unfold allow_job_read, allow_job_write, kwargs_get.
  by rewrite Habsent.
Qed.

(** C10.  [check_job] and [update_job_status] do not look at [as_admin]:
    any two values of the flag give the same result and the same final
    world, and the one call that is delegated carries no flag. *)
Theorem as_admin_is_ignored self job_id check_permission exclude_fields
    status (a1 a2 : PyVal) w :
  check_job self job_id check_permission exclude_fields a1 w
    = check_job self job_id check_permission exclude_fields a2 w
  /\ update_job_status self job_id status a1 w
    = update_job_status self job_id status a2 w
  /\ trace (snd (check_job self job_id check_permission exclude_fields a1 w))
    = (trace w ++ [JobsStatus_check_job job_id check_permission exclude_fields])%list
  /\ trace (snd (update_job_status self job_id status a1 w))
    = (trace w ++ [JobsStatus_update_job_status job_id status])%list.
Proof.
  repeat split; try reflexivity.
  - unfold check_job, mbind, M_bind. rewrite get_jobs_status_run.
    by rewrite call_trace.
  - unfold update_job_status, mbind, M_bind. rewrite get_jobs_status_run.
    by rewrite call_trace.
Qed.

End Endpoints.

(** ** Timestamps *)

Section Strings.

Lemma is_decimal_isdigit c : is_decimal c = true -> char_isdigit c = true.
Proof.
  unfold is_decimal, digit_value, char_isdigit.
  destruct ((48 <=? Z.of_N (N_of_ascii c)) && (Z.of_N (N_of_ascii c) <=? 57));
    [done | discriminate].
Qed.

Lemma str_all_decimal_isdigit r :
  str_all is_decimal r = true -> str_all char_isdigit r = true.
Proof.
  induction r as [|c r IH]; [done|]. simpl.
  intros [Hc Hr]%andb_prop. by rewrite (is_decimal_isdigit c Hc), IH.
Qed.

Lemma numeric_string_isdigit s :
  numeric_string s = true -> str_isdigit (str_replace_dot_once s) = true.
Proof.
  unfold numeric_string, str_isdigit.
  destruct (str_replace_dot_once s); [discriminate|].
  apply str_all_decimal_isdigit.
Qed.

Lemma digits_value_decimal r acc :
  str_all is_decimal r = true -> is_Some (digits_value acc r).
Proof.
  revert acc. induction r as [|c r IH]; intros acc; [by eexists|]. simpl.
  intros [Hc Hr]%andb_prop. unfold is_decimal in Hc.
  destruct (digit_value c) as [d|]; [|discriminate]. simpl. by apply IH.
Qed.

(** Splitting at the first ['.'] and removing it are two views of one scan. *)
Lemma str_partition_dot_spec s :
  str_replace_dot_once s
    = (str_partition_dot s).1 +:+ default EmptyString (str_partition_dot s).2
  /\ str_contains_dot s = bool_decide (is_Some (str_partition_dot s).2).
Proof.
  induction s as [|c s [IH1 IH2]]; [done|]. simpl.
  destruct (Ascii.eqb c dot); simpl.
  - done.
  - destruct (str_partition_dot s) as [a b]; simpl in *. by rewrite IH1, IH2.
Qed.

Lemma str_replace_dot_once_no_dot s :
  str_contains_dot s = false -> str_replace_dot_once s = s.
Proof.
  induction s as [|c s IH]; [done|]. simpl.
  destruct (Ascii.eqb c dot); [discriminate|]. simpl. intros Hs. by rewrite IH.
Qed.

Lemma numeric_string_py_float s :
  numeric_string s = true -> is_Some (py_float s).
Proof.
  unfold numeric_string, py_float. intros Hnum.
  destruct (str_partition_dot_spec s) as [Hrep _].
  destruct (str_partition_dot s) as [a b]; simpl in *. rewrite <- Hrep.
  destruct (digits_value_decimal (str_replace_dot_once s) 0) as [n ->];
    [|by eexists].
  by destruct (str_replace_dot_once s).
Qed.

Lemma numeric_string_py_int `{Interpreter} s :
  numeric_string s = true -> str_contains_dot s = false ->
  over_digit_limit (Z.of_nat (String.length s)) = false ->
  is_Some (py_int s).
Proof.
  unfold numeric_string, py_int. intros Hnum Hdot ->.
  rewrite (str_replace_dot_once_no_dot s Hdot) in Hnum.
  apply digits_value_decimal. by destruct s.
Qed.

Lemma py_int_over_limit `{Interpreter} s :
  over_digit_limit (Z.of_nat (String.length s)) = true -> py_int s = None.
Proof. unfold py_int. by intros ->. Qed.

(** A string of at most 640 characters is within every limit. *)
Lemma short_string_within_limit `{Interpreter} s :
  (String.length s <= 640)%nat ->
  over_digit_limit (Z.of_nat (String.length s)) = false.
Proof.
  intros Hlen. unfold over_digit_limit, INT_STR_DIGITS_THRESHOLD.
  apply andb_false_iff. right. apply Z.ltb_ge. lia.
Qed.

(** What [int(s)] yields is the value of the digits. *)
Lemma py_int_Some `{Interpreter} s n :
  py_int s = Some n ->
  digits_value 0 s = Some n
  /\ over_digit_limit (Z.of_nat (String.length s)) = false.
Proof.
  unfold py_int.
  by destruct (over_digit_limit (Z.of_nat (String.length s))).
Qed.

End Strings.

Section Timestamps.
Context `{Collaborators} `{Interpreter} `{Platform}.
Implicit Types (v : PyVal) (w : World) (s : string) (f : float).

Lemma check_and_convert_time_completed v u flag w :
  try_block v = Completed u ->
  _check_and_convert_time v flag w = (Return u, w).
Proof. unfold _check_and_convert_time. by intros ->. Qed.

Lemma check_and_convert_time_raised v u w :
  try_block v = Raised u ->
  format_raises u = false ->
  _check_and_convert_time v true w = (Return (PyFloat (clock w)), logged (cannot_convert u) w)
  /\ _check_and_convert_time v false w = (Raise (ValueError (cannot_convert u)), w).
Proof.
  unfold _check_and_convert_time, format_cannot_convert. by intros -> ->.
Qed.

(** When the message cannot be built, its error is the outcome under
    either flag. *)
Lemma check_and_convert_time_unformattable v u flag w :
  try_block v = Raised u ->
  format_raises u = true ->
  _check_and_convert_time v flag w = (Raise int_str_limit_error, w).
Proof.
  unfold _check_and_convert_time, format_cannot_convert. intros -> ->.
  by destruct flag.
Qed.

(** A value that converts to a float accepted by [fromtimestamp] is
    normalized to that float. *)
Lemma try_block_converted v f :
  convert v = Completed (PyFloat f) -> fromtimestamp_ok f = true ->
  try_block v = Completed (PyFloat f).
Proof. unfold try_block. intros -> Hok. simpl. by rewrite Hok. Qed.

(** An assignment that raises leaves the variable as it was. *)
Lemma convert_raised v u : convert v = Raised u -> u = v.
Proof.
  unfold convert, assign. intros Hc.
  repeat match type of Hc with
         | context [match ?x with _ => _ end] => destruct x
         end; congruence.
Qed.

(** C6, amended.  A string that is all decimal digits once at most one
    ['.'] is removed is parsed as a float when it has a ['.'] and, when it
    has none, as an integer divided by 1000.0; [int] accepts it unless it has
    more digits than the interpreter's limit, in which case the conversion
    has failed with the string as the value at hand.  An integer is divided
    by 1000.0.  In each case the value obtained is the result whenever
    [datetime.fromtimestamp] accepts it.  Where 1610000000.0 is accepted,
    ["1610000000000"], ["1610000000.0"] and the integer 1610000000000 all
    normalize to it. *)
Theorem numeric_string_normalized flag w :
  (forall s, numeric_string s = true ->
     (str_contains_dot s = true ->
        exists f, py_float s = Some f
          /\ (fromtimestamp_ok f = true ->
              _check_and_convert_time (PyStr s) flag w = (Return (PyFloat f), w)))
     /\ (str_contains_dot s = false ->
        (over_digit_limit (Z.of_nat (String.length s)) = false ->
           exists n, py_int s = Some n
             /\ forall f, int_div_1000 n = Some f -> fromtimestamp_ok f = true ->
                 _check_and_convert_time (PyStr s) flag w = (Return (PyFloat f), w))
        /\ (over_digit_limit (Z.of_nat (String.length s)) = true ->
           py_int s = None /\ try_block (PyStr s) = Raised (PyStr s))))
  /\ (forall n f, int_div_1000 n = Some f -> fromtimestamp_ok f = true ->
      _check_and_convert_time (PyInt n) flag w = (Return (PyFloat f), w))
  /\ (fromtimestamp_ok (float_lit 1610000000) = true ->
      _check_and_convert_time (PyStr "1610000000000") flag w
        = (Return (PyFloat (float_lit 1610000000)), w)
      /\ _check_and_convert_time (PyStr "1610000000.0") flag w
        = (Return (PyFloat (float_lit 1610000000)), w)
      /\ _check_and_convert_time (PyInt 1610000000000) flag w
        = (Return (PyFloat (float_lit 1610000000)), w)).
Proof.
  assert (Hint : forall n f, int_div_1000 n = Some f -> fromtimestamp_ok f = true ->
            _check_and_convert_time (PyInt n) flag w = (Return (PyFloat f), w)).
  { intros n f Hf Hok.
    apply check_and_convert_time_completed, try_block_converted; [|done].
    unfold convert. simpl. by rewrite Hf. }
  split; [|split; [exact Hint|]].
  - intros s Hnum. pose proof (numeric_string_isdigit s Hnum) as Hdig. split.
    + intros Hdot. destruct (numeric_string_py_float s Hnum) as [f Hf].
      exists f. split; [done|]. intros Hok.
      apply check_and_convert_time_completed, try_block_converted; [|done].
      unfold convert. by rewrite Hdig, Hdot, Hf.
    + intros Hdot. split.
      * intros Hlim. destruct (numeric_string_py_int s Hnum Hdot Hlim) as [n Hn].
        exists n. split; [done|]. intros f Hf Hok.
        apply check_and_convert_time_completed, try_block_converted; [|done].
        unfold convert. rewrite Hdig, Hdot, Hn. simpl. by rewrite Hf.
      * intros Hlim. pose proof (py_int_over_limit s Hlim) as Hn.
        split; [done|]. unfold try_block, convert. by rewrite Hdig, Hdot, Hn.
  - intros Hok. split; [|split].
    + assert (Hn : py_int "1610000000000" ≫= int_div_1000
                   = Some (float_lit 1610000000)).
      { unfold py_int.
        rewrite (short_string_within_limit "1610000000000") by (simpl; lia).
        vm_compute. reflexivity. }
      apply check_and_convert_time_completed, try_block_converted; [|done].
      unfold convert. by rewrite Hn.
    + apply check_and_convert_time_completed, try_block_converted; [|done].
      vm_compute. reflexivity.
    + by apply Hint.
Qed.

(** C7, amended.  When the [try] block fails and the value [time_input]
    holds can be rendered, the only outcomes are: with the default requested,
    the failure is logged and the clock's reading is returned; without it,
    [ValueError] is raised.  Log record and error carry the value
    [time_input] holds at the failure: the input itself if the conversion
    raised or the input is of no converted type, and the converted epoch
    value if [datetime.fromtimestamp] refused it.  An integer over the
    interpreter's digit limit cannot be rendered: building the message then
    raises, and that error is the outcome under either flag, nothing being
    logged. *)
Theorem failed_conversion_outcomes v u w :
  try_block v = Raised u ->
  (format_raises u = false ->
     _check_and_convert_time v true w
       = (Return (PyFloat (clock w)), logged (cannot_convert u) w)
     /\ _check_and_convert_time v false w
       = (Raise (ValueError (cannot_convert u)), w))
  /\ (format_raises u = true ->
     forall flag, _check_and_convert_time v flag w = (Raise int_str_limit_error, w))
  /\ ((convert v = Raised v /\ u = v)
      \/ (convert v = Completed u /\ fromtimestamp_accepts u = false)).
Proof.
  intros Hfail.
  split; [intros Hfmt; by apply (check_and_convert_time_raised v u w)|].
  split; [intros Hfmt flag; by apply (check_and_convert_time_unformattable v u)|].
  unfold try_block in Hfail.
  destruct (convert v) as [c|c] eqn:Hc.
  - right. destruct (fromtimestamp_accepts c) eqn:Hacc; [discriminate|].
    by injection Hfail as ->.
  - left. injection Hfail as ->. by rewrite (convert_raised _ _ Hc) in *.
Qed.

(** C8, amended.  A boolean is not rejected: [bool] being a kind of
    [int], [True] and [False] take the integer branch and normalize to
    [True / 1000.0] and [False / 1000.0] whenever [datetime.fromtimestamp]
    accepts that value. *)
Theorem boolean_taken_as_integer (b : bool) flag w :
  fromtimestamp_ok (bool_seconds b) = true ->
  _check_and_convert_time (PyBool b) flag w
    = (Return (PyFloat (bool_seconds b)), w).
Proof.
  intros Hok.
  apply check_and_convert_time_completed, try_block_converted; [|done].
  by destruct b; vm_compute.
Qed.

End Timestamps.

(** ** Runs on the reference environment *)

Section Runs.
#[local] Existing Instance quiet_collaborators.
#[local] Existing Instance cpython_3_11.
#[local] Existing Instance utc_host.

(** The constructor, given no cache, allocates two distinct empty ones. *)
Example init_allocates_two_caches :
  init (Some "alice") None None None empty_world = (Return alice, world_of ∅ ∅).
Proof. vm_compute. reflexivity. Qed.

(** The calendar string of the specification's example. *)
Example iso_string_normalized :
  fst (_check_and_convert_time (PyStr "2021-01-07T00:00:00Z") false empty_world)
    = Return (PyFloat (float_lit 1609977600)).
Proof. vm_compute. reflexivity. Qed.

Lemma get_admin_permission_miss_unbound_witness :
  cached alice (world_of ∅ ∅) = None
  /\ get_admin_permission alice (PyPerm READ) (world_of ∅ ∅)
      = (Raise (UnboundLocalError "permission"), world_of ∅ ∅)
  /\ get_admin_permission alice (PyPerm WRITE) (world_of ∅ ∅)
      = (Raise (UnboundLocalError "permission"), world_of ∅ ∅).
Proof.
  split; [reflexivity|].
  apply (get_admin_permission_miss_unbound alice (world_of ∅ ∅)). reflexivity.
Defined.

Lemma admin_lookup_reads_job_permission_cache_witness :
  get_admin_permission alice (PyPerm READ)
      (world_of {[ Some "alice" := PyPerm WRITE ]} ∅)
    = (Return true, world_of {[ Some "alice" := PyPerm WRITE ]} ∅).
Proof.
  apply (admin_lookup_reads_job_permission_cache alice
           (world_of {[ Some "alice" := PyPerm WRITE ]} ∅) WRITE);
    [discriminate | reflexivity | reflexivity].
Defined.

Lemma get_admin_permission_satisfies_witness :
  get_admin_permission alice (PyPerm READ)
      (world_of {[ Some "alice" := PyPerm READ ]} ∅)
    = (Return true, world_of {[ Some "alice" := PyPerm READ ]} ∅)
  /\ get_admin_permission alice (PyPerm WRITE)
      (world_of {[ Some "alice" := PyPerm READ ]} ∅)
    = (Return false, world_of {[ Some "alice" := PyPerm READ ]} ∅).
Proof.
  apply (get_admin_permission_satisfies alice
           (world_of {[ Some "alice" := PyPerm READ ]} ∅) READ).
  reflexivity.
Defined.

Lemma check_job_canceled_as_admin_witness :
  trace (snd (check_job_canceled alice (PyStr "job-1") (PyBool true)
                (world_of {[ Some "alice" := PyPerm READ ]} ∅)))
    = [JobsStatus_check_job_canceled (PyStr "job-1") (PyBool true)]
  /\ check_job_canceled alice (PyStr "job-1") (PyBool true)
       (world_of {[ Some "alice" := PyPerm NONE ]} ∅)
    = (Raise not_permitted_to_cancel, world_of {[ Some "alice" := PyPerm NONE ]} ∅).
Proof.
  split.
  - apply (proj1 (check_job_canceled_as_admin alice (PyStr "job-1")
                    (world_of {[ Some "alice" := PyPerm READ ]} ∅))).
    vm_compute. reflexivity.
  - apply (proj2 (check_job_canceled_as_admin alice (PyStr "job-1")
                    (world_of {[ Some "alice" := PyPerm NONE ]} ∅))).
    vm_compute. reflexivity.
Defined.

Lemma gates_require_job_id_witness :
  allow_job_read noop alice [] ∅ empty_world = (Raise missing_job_id, empty_world)
  /\ allow_job_write noop alice [] ∅ empty_world = (Raise missing_job_id, empty_world).
Proof.
  apply (gates_require_job_id noop alice [] ∅ empty_world). reflexivity.
Defined.

Lemma numeric_string_normalized_witness :
  (_check_and_convert_time (PyStr "1610000000000") false empty_world
     = (Return (PyFloat (float_lit 1610000000)), empty_world)
   /\ _check_and_convert_time (PyStr "1610000000.0") false empty_world
     = (Return (PyFloat (float_lit 1610000000)), empty_world)
   /\ _check_and_convert_time (PyInt 1610000000000) false empty_world
     = (Return (PyFloat (float_lit 1610000000)), empty_world))
  /\ _check_and_convert_time (PyStr "12.5") false empty_world
     = (Return (PyFloat (float_of_decimal 125 1)), empty_world)
  /\ _check_and_convert_time (PyStr "12500") false empty_world
     = (Return (PyFloat (float_of_decimal 125 1)), empty_world)
  /\ _check_and_convert_time (PyInt 12500) false empty_world
     = (Return (PyFloat (float_of_decimal 125 1)), empty_world)
  /\ (py_int (zeros 4301) = None
      /\ try_block (PyStr (zeros 4301)) = Raised (PyStr (zeros 4301))).
Proof.
  pose proof (numeric_string_normalized false empty_world)
    as (Hall & Hint & Hexamples).
  split; [apply Hexamples; vm_compute; reflexivity|].
  split; [|split; [|split]].
  - destruct (Hall "12.5" eq_refl) as [Hdot _].
    destruct (Hdot eq_refl) as (f & Hf & Hrun).
    vm_compute in Hf. injection Hf as <-.
    rewrite Hrun; [|vm_compute; reflexivity]. vm_compute. reflexivity.
  - destruct (Hall "12500" eq_refl) as [_ Hnodot].
    destruct (Hnodot eq_refl) as [Hshort _].
    destruct Hshort as (n & Hn & Hrun); [vm_compute; reflexivity|].
    vm_compute in Hn. injection Hn as <-.
    rewrite (Hrun (float_of_decimal 125 1)); [|vm_compute; reflexivity ..].
    reflexivity.
  - apply (Hint 12500 (float_of_decimal 125 1)); vm_compute; reflexivity.
  - destruct (Hall (zeros 4301)) as [_ Hnodot]; [vm_compute; reflexivity|].
    destruct Hnodot as [_ Hlong]; [vm_compute; reflexivity|].
    apply Hlong. vm_compute. reflexivity.
Defined.

Lemma failed_conversion_outcomes_witness :
  (_check_and_convert_time (PyStr "not a time") true empty_world
     = (Return (PyFloat (float_lit 1610000000)),
        logged (cannot_convert (PyStr "not a time")) empty_world)
   /\ _check_and_convert_time (PyStr "not a time") false empty_world
     = (Raise (ValueError (cannot_convert (PyStr "not a time"))), empty_world))
  /\ _check_and_convert_time (PyInt (10 ^ 4300)) true empty_world
     = (Raise int_str_limit_error, empty_world).
Proof.
  split.
  - destruct (failed_conversion_outcomes (PyStr "not a time") (PyStr "not a time")
                empty_world) as (Hrendered & _);
      [vm_compute; reflexivity | apply Hrendered; reflexivity].
  - destruct (failed_conversion_outcomes (PyInt (10 ^ 4300)) (PyInt (10 ^ 4300))
                empty_world) as (_ & Hlimit & _);
      [vm_compute; reflexivity | apply Hlimit; vm_compute; reflexivity].
Defined.

Lemma boolean_taken_as_integer_witness :
  _check_and_convert_time (PyBool false) false empty_world
    = (Return (PyFloat (S754_zero false)), empty_world).
Proof.
  apply (boolean_taken_as_integer false false empty_world).
  vm_compute. reflexivity.
Defined.

(** C6 as stated fails on a digit string too large to be a point in time:
    ["99999999999999999999999"] is all digits and converts to a float, yet
    the call raises instead of returning that float.  It fails as well on
    4301 zeros under a limit of 4300 digits: [int] refuses the string, and
    the call raises although the digits spell 0. *)
Lemma huge_digit_string_is_refused :
  (numeric_string "99999999999999999999999" = true
   /\ exists f,
        py_int "99999999999999999999999" ≫= int_div_1000 = Some f
        /\ _check_and_convert_time (PyStr "99999999999999999999999") false empty_world
           = (Raise (ValueError (cannot_convert (PyFloat f))), empty_world)
        /\ fst (_check_and_convert_time (PyStr "99999999999999999999999") false
                  empty_world)
           <> Return (PyFloat f))
  /\ (numeric_string (zeros 4301) = true
      /\ digits_value 0 (zeros 4301) = Some 0
      /\ _check_and_convert_time (PyStr (zeros 4301)) false empty_world
         = (Raise (ValueError (cannot_convert (PyStr (zeros 4301)))), empty_world)).
Proof.
  split.
  - split; [reflexivity|].
    eexists. split; [vm_compute; reflexivity|].
    split; [vm_compute; reflexivity | vm_compute; discriminate].
  - repeat split; vm_compute; reflexivity.
Qed.

(** C7 as stated fails on the integer 10^20: the conversion yields 1e17,
    [datetime.fromtimestamp] refuses it, and the error then carries 1e17,
    not the input.  It fails as well on the integer 10^4300 under a limit
    of 4300 digits: with the default requested the call raises, as the
    message cannot be built, and nothing is logged. *)
Lemma error_carries_converted_value :
  (exists f,
     int_div_1000 (10 ^ 20) = Some f
     /\ _check_and_convert_time (PyInt (10 ^ 20)) false empty_world
        = (Raise (ValueError (cannot_convert (PyFloat f))), empty_world)
     /\ cannot_convert (PyFloat f) <> cannot_convert (PyInt (10 ^ 20)))
  /\ _check_and_convert_time (PyInt (10 ^ 4300)) true empty_world
     = (Raise int_str_limit_error, empty_world).
Proof.
  split.
  - eexists. split; [vm_compute; reflexivity|].
    split; [vm_compute; reflexivity | discriminate].
  - vm_compute. reflexivity.
Qed.

(** C8 as stated fails on [True]: it is normalized to 0.001, no error is
    raised. *)
Lemma True_is_normalized :
  _check_and_convert_time (PyBool true) false empty_world
    = (Return (PyFloat (bool_seconds true)), empty_world)
  /\ forall e, fst (_check_and_convert_time (PyBool true) false empty_world)
               <> Raise e.
Proof.
  split; [vm_compute; reflexivity|]. intros e. vm_compute. discriminate.
Qed.

End Runs.

(** ** More on the admin lookup, the gates and the cancellation check *)

Section MoreAccess.
Context `{Collaborators}.
Implicit Types (self : SDKMethodRunner) (w : World) (v : PyVal).

Lemma is_perm_true v p : is_perm v p = true -> v = PyPerm p.
Proof.
  destruct v; simpl; try discriminate. intros Hq.
  by apply bool_decide_eq_true in Hq as ->.
Qed.

(** X1.  The levels are ordered: whenever the lookup grants WRITE it
    grants READ as well. *)
Theorem admin_write_implies_read self w :
  fst (get_admin_permission self (PyPerm WRITE) w) = Return true ->
  fst (get_admin_permission self (PyPerm READ) w) = Return true.
Proof.
  rewrite !get_admin_permission_unfold. simpl.
  destruct (cached self w) as [v|]; simpl; [|discriminate].
  intros [= Hw]. by rewrite Hw, orb_true_r.
Qed.

(** X2.  A cache entry that is no member of [JobPermissions], such as the
    raw string ["w"] or [None], grants nothing: READ and WRITE are both
    answered false, without an error. *)
Theorem admin_denies_non_member_entry self w v :
  cached self w = Some v ->
  (forall p, v <> PyPerm p) ->
  get_admin_permission self (PyPerm READ) w = (Return false, w)
  /\ get_admin_permission self (PyPerm WRITE) w = (Return false, w).
Proof.
  intros Hhit Hv. rewrite !get_admin_permission_unfold, Hhit. simpl.
  assert (Hno : forall p, is_perm v p = false).
  { intros p. destruct (is_perm v p) eqn:E; [|done].
    by apply is_perm_true, Hv in E. }
  by rewrite !Hno.
Qed.

(** X3.  The lookup raises in two situations only: the request is neither
    READ nor WRITE, or the cache has no entry for the user. *)
Theorem get_admin_permission_raises_iff self req w :
  (exists e, fst (get_admin_permission self req w) = Raise e)
  <-> (is_perm req READ || is_perm req WRITE = false \/ cached self w = None).
Proof.
  rewrite get_admin_permission_unfold. simpl.
  destruct (is_perm req READ), (is_perm req WRITE), (cached self w);
    simpl; split; try (intros [e [=]]); try (intros [[=]|[=]]); eauto.
Qed.

(** X4.  An [as_admin] that is not the object [True] (so also a truthy
    value such as [1]) skips the admin check altogether: the status check is
    delegated at once, with the flag passed on as it came, even when the
    cache has no entry for the user. *)
Theorem check_job_canceled_without_admin_check self job_id as_admin w :
  is_True as_admin = false ->
  check_job_canceled self job_id as_admin w
    = call (JobsStatus_check_job_canceled job_id as_admin) (with_jobs_status w).
Proof.
  intros Hflag. unfold check_job_canceled. rewrite Hflag.
  unfold mbind, M_bind, mret, M_ret. by rewrite get_jobs_status_run.
Qed.

(** X5.  Under [as_admin=True] a user without a cache entry cannot have
    the status checked: the unassigned local of the admin lookup surfaces as
    [UnboundLocalError], nothing is delegated and no handle is built. *)
Theorem check_job_canceled_admin_miss self job_id w :
  cached self w = None ->
  check_job_canceled self job_id (PyBool true) w
    = (Raise (UnboundLocalError "permission"), w).
Proof.
  intros Hmiss.
  apply (check_job_canceled_admin_run self job_id w
           (Raise (UnboundLocalError "permission"))).
  by rewrite get_admin_permission_unfold, Hmiss.
Qed.

(** X6.  Given a [job_id], a gate first calls the permission test with
    that id and its own level.  If the test raises, that is the outcome and
    the wrapped function is not run; if it returns, the wrapped function runs
    with the arguments unchanged on the world the test left, and its outcome
    is the gate's. *)
Theorem gate_tests_permission_first (func : Method) self args
    (kwargs : gmap string PyVal) w :
  is_None (kwargs_get kwargs "job_id") = false ->
  let read := test_job_permission_with_cache (kwargs_get kwargs "job_id") READ in
  let write := test_job_permission_with_cache (kwargs_get kwargs "job_id") WRITE in
  (forall e, fst (call read w) = Raise e ->
     allow_job_read func self args kwargs w = call read w)
  /\ (forall r, fst (call read w) = Return r ->
     allow_job_read func self args kwargs w
       = func self args kwargs (snd (call read w)))
  /\ (forall e, fst (call write w) = Raise e ->
     allow_job_write func self args kwargs w = call write w)
  /\ (forall r, fst (call write w) = Return r ->
     allow_job_write func self args kwargs w
       = func self args kwargs (snd (call write w))).
Proof.
  intros Hid read write. unfold allow_job_read, allow_job_write.
  rewrite Hid. fold read write. unfold mbind, M_bind.
  destruct (call read w) as [rr wr], (call write w) as [rw ww]; simpl.
  repeat split; intros ? ->; done.
Qed.

(** X7.  A [job_id] passed as [None] counts as missing: both gates raise
    [ValueError] and touch nothing, whatever the positional arguments. *)
Theorem gate_rejects_None_job_id (func : Method) self args
    (kwargs : gmap string PyVal) w :
  kwargs !! "job_id" = Some PyNone ->
  allow_job_read func self args kwargs w = (Raise missing_job_id, w)
  /\ allow_job_write func self args kwargs w = (Raise missing_job_id, w).
Proof.
  intros Hnone. unfold allow_job_read, allow_job_write, kwargs_get.
  by rewrite Hnone.
Qed.

End MoreAccess.

(** ** More on timestamps *)

Section MoreStrings.

Lemma digits_value_not_decimal r acc :
  str_all is_decimal r = false -> digits_value acc r = None.
Proof.
  revert acc. induction r as [|c r IH]; intros acc; [discriminate|]. simpl.
  unfold is_decimal. destruct (digit_value c) as [d|]; simpl; [|done].
  apply IH.
Qed.

Lemma digits_value_all_decimal r acc n :
  digits_value acc r = Some n -> str_all is_decimal r = true.
Proof.
  intros Hn. destruct (str_all is_decimal r) eqn:E; [done|].
  by rewrite (digits_value_not_decimal r acc E) in Hn.
Qed.

Lemma is_decimal_not_dot c : is_decimal c = true -> Ascii.eqb c dot = false.
Proof.
  destruct (Ascii.eqb c dot) eqn:E; [|done].
  apply Ascii.eqb_eq in E as ->. discriminate.
Qed.

Lemma str_all_decimal_no_dot r :
  str_all is_decimal r = true -> str_contains_dot r = false.
Proof.
  induction r as [|c r IH]; [done|]. simpl.
  intros [Hc Hr]%andb_prop. by rewrite (is_decimal_not_dot c Hc), IH.
Qed.

End MoreStrings.

Section MoreTimestamps.
Context `{Collaborators} `{Interpreter} `{Platform}.
Implicit Types (v u : PyVal) (w : World) (s : string) (f : float).

(** The conversion leaves a value as it was or yields a float. *)
Lemma convert_completed v u :
  convert v = Completed u -> u = v \/ exists f, u = PyFloat f.
Proof.
  unfold convert, assign. intros Hc.
  repeat match type of Hc with
         | context [match ?x with _ => _ end] => destruct x
         end; try discriminate; injection Hc as <-; eauto.
Qed.

(** What the [try] block completes with is a float that
    [datetime.fromtimestamp] accepts. *)
Lemma try_block_completed v u :
  try_block v = Completed u ->
  exists f, u = PyFloat f /\ fromtimestamp_ok f = true.
Proof.
  unfold try_block. destruct (convert v) as [c|c] eqn:Hc; [|discriminate].
  destruct (fromtimestamp_accepts c) eqn:Hacc; [|discriminate].
  intros [= <-]. destruct (convert_completed v c Hc) as [->|[f ->]].
  - destruct v; simpl in Hacc; try discriminate; try (by eexists).
    + unfold convert, assign in Hc. simpl in Hc.
      by destruct (int_div_1000 (if b then 1 else 0)).
    + unfold convert, assign in Hc. simpl in Hc. by destruct (int_div_1000 n).
  - by exists f.
Qed.

Lemma try_block_float f :
  fromtimestamp_ok f = true -> try_block (PyFloat f) = Completed (PyFloat f).
Proof. intros Hok. unfold try_block. simpl. by rewrite Hok. Qed.

(** X8.  With the default requested the normalizer does not raise on
    anything but an integer over the interpreter's digit limit: on every
    other input it returns a float. *)
Theorem default_always_returns_float v w :
  format_raises v = false ->
  exists f w', _check_and_convert_time v true w = (Return (PyFloat f), w').
Proof.
  intros Hfmt.
  destruct (try_block v) as [u|u] eqn:Htry.
  - destruct (try_block_completed v u Htry) as (f & -> & _).
    exists f, w. by apply check_and_convert_time_completed.
  - assert (Hu : format_raises u = false).
    { unfold try_block in Htry. destruct (convert v) as [c|c] eqn:Hc.
      - destruct (fromtimestamp_accepts c); [discriminate|].
        injection Htry as <-.
        by destruct (convert_completed v c Hc) as [->|[f ->]].
      - injection Htry as <-. by rewrite (convert_raised v c Hc). }
    eexists _, _. by apply (check_and_convert_time_raised v u w).
Qed.

(** X9.  The flag matters on failure only.  Without the default the world
    is never changed; and when the call without default returns, the call
    with default returns the same value and logs nothing. *)
Theorem default_flag_matters_only_on_failure v w :
  snd (_check_and_convert_time v false w) = w
  /\ forall u, fst (_check_and_convert_time v false w) = Return u ->
       _check_and_convert_time v true w = (Return u, w).
Proof.
  unfold _check_and_convert_time, format_cannot_convert.
  destruct (try_block v) as [c|c]; simpl.
  - split; [done|]. by intros u [= ->].
  - unfold mbind, M_bind, raise, mret, M_ret.
    destruct (format_raises c); simpl; split; done.
Qed.

(** X10.  A normalized value is a fixed point: what the normalizer
    returns without default is a float that [datetime.fromtimestamp]
    accepts, and normalizing it again gives it back unchanged (a float is
    taken as seconds, not divided by 1000). *)
Theorem normalized_is_fixed_point v u w w' :
  _check_and_convert_time v false w = (Return u, w') ->
  exists f, u = PyFloat f /\ fromtimestamp_ok f = true
    /\ forall flag w2, _check_and_convert_time u flag w2 = (Return u, w2).
Proof.
  unfold _check_and_convert_time at 1.
  destruct (try_block v) as [c|c] eqn:Htry.
  2:{ unfold format_cannot_convert, mbind, M_bind, raise, mret, M_ret.
      destruct (format_raises c); discriminate. }
  intros [= <- <-]. destruct (try_block_completed v c Htry) as (f & -> & Hok).
  exists f. repeat split; [done|]. intros flag w2.
  apply check_and_convert_time_completed. by apply try_block_float.
Qed.

(** X11.  A string of decimal digits and the integer it spells are
    normalized alike, as long as the integer can be converted to a float:
    same result, same world, whatever the flag. *)
Theorem digit_string_agrees_with_integer s n f flag w :
  s <> EmptyString ->
  py_int s = Some n ->
  int_div_1000 n = Some f ->
  _check_and_convert_time (PyStr s) flag w
    = _check_and_convert_time (PyInt n) flag w.
Proof.
  intros Hne Hn Hf.
  destruct (py_int_Some s n Hn) as [Hval _].
  pose proof (digits_value_all_decimal s 0 n Hval) as Hdec.
  pose proof (str_all_decimal_no_dot s Hdec) as Hdot.
  assert (Hdig : str_isdigit (str_replace_dot_once s) = true).
  { apply numeric_string_isdigit. unfold numeric_string.
    rewrite (str_replace_dot_once_no_dot s Hdot). by destruct s. }
  unfold _check_and_convert_time, try_block, convert.
  rewrite Hdig, Hdot, Hn. simpl. by rewrite Hf.
Qed.

(** X12.  A string that passes [isdigit] without being all decimal digits
    (a superscript two, say) fails in the numeric branch: the calendar parser
    is not tried, and without default the error carries the string. *)
Theorem non_decimal_digits_fail s w :
  str_isdigit (str_replace_dot_once s) = true ->
  numeric_string s = false ->
  _check_and_convert_time (PyStr s) false w
    = (Raise (ValueError (cannot_convert (PyStr s))), w).
Proof.
  intros Hdig Hnum.
  assert (Hbad : str_all is_decimal (str_replace_dot_once s) = false).
  { unfold numeric_string in Hnum. unfold str_isdigit in Hdig.
    by destruct (str_replace_dot_once s). }
  assert (Hconv : (if str_contains_dot s then py_float s
                   else py_int s ≫= int_div_1000) = None).
  { destruct (str_contains_dot s) eqn:Hdot.
    - unfold py_float. destruct (str_partition_dot_spec s) as [Hrep _].
      destruct (str_partition_dot s) as [a b]; simpl in *.
      rewrite <- Hrep. by rewrite (digits_value_not_decimal _ 0 Hbad).
    - rewrite (str_replace_dot_once_no_dot s Hdot) in Hbad.
      unfold py_int. rewrite (digits_value_not_decimal _ 0 Hbad).
      by destruct (over_digit_limit (Z.of_nat (String.length s))). }
  unfold _check_and_convert_time, try_block, convert.
  by rewrite Hdig, Hconv.
Qed.

End MoreTimestamps.

(** X13.  Numeric strings never reach the calendar parser: on two hosts
    that agree on [datetime.fromtimestamp], whatever their [dateutil], a
    string that passes [isdigit] once a ['.'] is removed is normalized
    alike. *)
Theorem numeric_strings_ignore_dateutil `{Collaborators} `{Interpreter}
    (P1 P2 : Platform) (s : string) flag (w : World) :
  (forall f, @fromtimestamp_ok P1 f = @fromtimestamp_ok P2 f) ->
  str_isdigit (str_replace_dot_once s) = true ->
  @_check_and_convert_time _ _ P1 (PyStr s) flag w
    = @_check_and_convert_time _ _ P2 (PyStr s) flag w.
Proof.
  intros Hsame Hdig.
  unfold _check_and_convert_time, try_block, convert. rewrite Hdig.
  destruct (if str_contains_dot s then py_float s else py_int s ≫= int_div_1000)
    as [f|]; simpl; [|done].
  by rewrite Hsame.
Qed.

(** ** Booleans from configuration, and the logger *)

Section Configuration.
Context `{JsonLib}.
Implicit Types (v u : PyVal) (s : string).

Lemma char_lower_idemp c : char_lower (char_lower c) = char_lower c.
Proof. by destruct c as [[] [] [] [] [] [] [] []]. Qed.

Lemma str_lower_idemp s : str_lower (str_lower s) = str_lower s.
Proof.
  induction s as [|c s IH]; [done|]. simpl. by rewrite char_lower_idemp, IH.
Qed.

(** A string is read as a boolean exactly if, in lower case and without
    the surrounding JSON white space, it is the literal. *)
Lemma parse_bool_string s u :
  parse_bool_from_string (PyStr s) = Return u
  <-> exists b : bool, u = PyBool b
        /\ json_strip (str_lower s) = if b then "true" else "false".
Proof.
  unfold parse_bool_from_string, json_loads.
  destruct (String.eqb (json_strip (str_lower s)) "true") eqn:Et.
  { apply String.eqb_eq in Et. split.
    - intros [= <-]. by exists true.
    - intros ([|] & -> & Hs); [done|]. rewrite Et in Hs. discriminate. }
  destruct (String.eqb (json_strip (str_lower s)) "false") eqn:Ef.
  { apply String.eqb_eq in Ef. split.
    - intros [= <-]. by exists false.
    - intros ([|] & -> & Hs); [|done]. rewrite Ef in Hs. discriminate. }
  apply String.eqb_neq in Et, Ef.
  split.
  - by destruct (json_loads_other (str_lower s)).
  - by intros ([|] & _ & Hs).
Qed.

(** X14.  [parse_bool_from_string] returns in three cases only: a boolean
    and an integer come back as they are (an integer is not turned into a
    boolean), and a string comes back as the boolean it spells, in any
    letter case and between optional JSON white space.  Every other input
    raises. *)
Theorem parse_bool_returns_iff v u :
  parse_bool_from_string v = Return u
  <-> (u = v /\ ((exists b, v = PyBool b) \/ (exists n, v = PyInt n)))
      \/ (exists s (b : bool), v = PyStr s /\ u = PyBool b
            /\ json_strip (str_lower s) = if b then "true" else "false").
Proof.
  destruct v as [|b|n|f|s|p|d];
    try (simpl; split; [discriminate | by intros [[_ [[? ?]|[? ?]]]|(? & ? & ? & _)]]).
  - simpl. split.
    + intros [= <-]. left. eauto.
    + by intros [[-> _]|(? & ? & ? & _)].
  - simpl. split.
    + intros [= <-]. left. eauto.
    + by intros [[-> _]|(? & ? & ? & _)].
  - rewrite parse_bool_string. split.
    + intros (b & -> & Hs). right. by exists s, b.
    + intros [[_ [[? ?]|[? ?]]]|(s' & b & [= <-] & -> & Hs)]; try done.
      by exists b.
Qed.

(** X15.  Parsing is idempotent: a value the function returned is
    returned unchanged when parsed again. *)
Theorem parse_bool_idempotent v u :
  parse_bool_from_string v = Return u ->
  parse_bool_from_string u = Return u.
Proof.
  destruct v as [|b|n|f|s|p|d]; simpl; try discriminate.
  - by intros [= <-].
  - by intros [= <-].
  - intros Hs. apply parse_bool_string in Hs as (b & -> & _). done.
Qed.

(** X16.  Letter case is ignored: a string and its lower-case form are
    parsed alike. *)
Theorem parse_bool_ignores_case s :
  parse_bool_from_string (PyStr (str_lower s)) = parse_bool_from_string (PyStr s).
Proof. simpl. by rewrite str_lower_idemp. Qed.

(** X17.  A configuration without a ["debug"] entry cannot be used:
    [config.get("debug")] is [None], whose missing [lower] raises
    [AttributeError], and no handler is added to the logger. *)
Theorem missing_debug_is_an_error (config : gmap string PyVal)
    (ee2 : list Handler) :
  config !! "debug" = None ->
  init_logging config ee2 = (Raise (AttributeError PyNone "lower"), ee2).
Proof. intros Hmiss. unfold init_logging, kwargs_get. by rewrite Hmiss. Qed.

(** X18.  Handlers pile up on the shared logger: every runner constructed
    from a configuration whose debug entry parses appends one handler (at
    DEBUG for a truthy entry, at WARN otherwise) and none is ever removed or
    changed. *)
Theorem handlers_accumulate (configs : list (gmap string PyVal))
    (ee2 : list Handler) :
  init_logging_all configs ee2 = (ee2 ++ omap handler_of_config configs)%list.
Proof.
  unfold init_logging_all. revert ee2.
  induction configs as [|config configs IH]; intros ee2; simpl.
  - by rewrite app_nil_r.
  - rewrite IH. unfold init_logging, handler_of_config, _set_log_level.
    destruct (parse_bool_from_string (kwargs_get config "debug")); simpl.
    + by rewrite <- app_assoc.
    + done.
Qed.

End Configuration.

(** ** The finish-time check *)

Section FinishTimesFacts.
Import FinishTimes.
Context `{Models}.
Implicit Types (job : Job) (jobs : list Job) (count : Z).

(** A turn of the loop raises exactly on a job that is not in order, and
    prints the progress line exactly at a multiple of 500. *)
Lemma loop_body_ok count job :
  job_ok job = true ->
  loop_body count job
    = (if count mod 500 =? 0 then [progress count] else [], None).
Proof.
  unfold job_ok, loop_body.
  destruct (job !! "_id") as [job_id|]; [|discriminate].
  destruct (job !! "status") as [status|]; [|discriminate].
  intros [[Hvalid Hend]%andb_prop Hrun]%andb_prop.
  rewrite Hvalid. simpl.
  apply negb_true_iff in Hend, Hrun. by rewrite Hend, Hrun.
Qed.

Lemma loop_body_not_ok count job :
  job_ok job = false -> exists e, snd (loop_body count job) = Some e.
Proof.
  unfold job_ok, loop_body.
  destruct (job !! "_id") as [job_id|]; [|by eexists].
  destruct (job !! "status") as [status|]; [|by eexists].
  destruct (valid_status status); simpl; [|by eexists].
  destruct (in_strings status [Status_error; Status_completed; Status_terminated]
            && is_None (kwargs_get job "finished")); simpl; [by eexists|].
  destruct (in_strings status [Status_running]
            && is_None (kwargs_get job "running")); simpl; [by eexists|].
  discriminate.
Qed.

Lemma loop_accepts_iff count jobs :
  snd (loop count jobs) = None <-> Forall (fun job => job_ok job = true) jobs.
Proof.
  revert count. induction jobs as [|job jobs IH]; intros count; simpl.
  - split; [by constructor | done].
  - destruct (job_ok job) eqn:Hok.
    + rewrite (loop_body_ok _ _ Hok). specialize (IH (count + 1)).
      destruct (loop (count + 1) jobs) as [more r]; simpl in *.
      rewrite IH. split; [by constructor | by inversion 1].
    + destruct (loop_body_not_ok (count + 1) job Hok) as [e He].
      destruct (loop_body (count + 1) job) as [printed [e'|]];
        simpl in *; [|discriminate].
      split; [discriminate|]. inversion 1; congruence.
Qed.

Lemma loop_progress count jobs :
  Forall (fun job => job_ok job = true) jobs ->
  fst (loop count jobs)
    = progress <$> filter (fun c => c mod 500 = 0)
                          (seqZ (count + 1) (Z.of_nat (length jobs))).
Proof.
  revert count. induction jobs as [|job jobs IH]; intros count Hall; [done|].
  inversion Hall as [|? ? Hok Hrest]; subst.
  cbn [loop length]. rewrite (loop_body_ok _ _ Hok).
  specialize (IH (count + 1) Hrest).
  destruct (loop (count + 1) jobs) as [more r]; simpl in IH. cbn [fst].
  rewrite seqZ_cons by lia.
  replace (Z.pred (Z.of_nat (S (length jobs)))) with (Z.of_nat (length jobs)) by lia.
  replace (Z.succ (count + 1)) with (count + 1 + 1) by lia.
  rewrite filter_cons, IH.
  destruct (Z.eqb_spec ((count + 1) mod 500) 0) as [Hz|Hz].
  - by rewrite decide_True.
  - by rewrite decide_False.
Qed.

Lemma loop_app_offender count good bad rest :
  Forall (fun job => job_ok job = true) good ->
  job_ok bad = false ->
  loop count (good ++ bad :: rest) = loop count (good ++ [bad])
  /\ snd (loop count (good ++ bad :: rest))
     = snd (loop_body (count + Z.of_nat (length good) + 1) bad).
Proof.
  revert count. induction good as [|job good IH]; intros count Hall Hbad.
  - destruct (loop_body_not_ok (count + 1) bad Hbad) as [e He].
    replace (count + Z.of_nat (length (@nil Job)) + 1) with (count + 1)
      by (simpl; lia).
    cbn [app loop].
    destruct (loop_body (count + 1) bad) as [printed [e'|]];
      simpl in *; [done | discriminate].
  - inversion Hall as [|? ? Hok Hrest]; subst.
    cbn [app loop length]. rewrite (loop_body_ok _ _ Hok).
    destruct (IH (count + 1) Hrest Hbad) as [Heq Hexc]. rewrite Heq.
    rewrite Heq in Hexc.
    destruct (loop (count + 1) (good ++ [bad])) as [more r]; simpl in *.
    split; [done|]. rewrite Hexc. f_equal. f_equal. lia.
Qed.

(** X19.  The script runs to its end exactly on collections in which every
    job is in order: it has an [_id] and a valid status, a [finished] entry
    that is not [None] if it ended (in error, completed or terminated), and
    a [running] entry that is not [None] if it is running. *)
Theorem script_accepts_iff jobs :
  snd (script jobs) = None <-> Forall (fun job => job_ok job = true) jobs.
Proof. apply loop_accepts_iff. Qed.

(** X20.  On such a collection the script prints one progress line for
    every 500th job, in order, and nothing else. *)
Theorem script_progress_lines jobs :
  Forall (fun job => job_ok job = true) jobs ->
  fst (script jobs)
    = progress <$> filter (fun c => c mod 500 = 0)
                          (seqZ 1 (Z.of_nat (length jobs))).
Proof. apply (loop_progress 0). Qed.

(** X21.  The script stops at the first job that is not in order: it ends
    in the exception raised for that job, and the jobs after it are not
    looked at. *)
Theorem script_stops_at_first_offender good bad rest :
  Forall (fun job => job_ok job = true) good ->
  job_ok bad = false ->
  script (good ++ bad :: rest) = script (good ++ [bad])
  /\ exists e, snd (script (good ++ bad :: rest)) = Some e
       /\ snd (loop_body (Z.of_nat (length good) + 1) bad) = Some e.
Proof.
  intros Hgood Hbad.
  destruct (loop_app_offender 0 good bad rest Hgood Hbad) as [Heq Hexc].
  split; [done|].
  destruct (loop_body_not_ok (Z.of_nat (length good) + 1) bad Hbad) as [e He].
  exists e. split; [|done]. unfold script. by rewrite Hexc.
Qed.

End FinishTimesFacts.

(** ** Clients on demand *)

Section ClientsFacts.
Import Clients.
Implicit Types (a : Accessor) (self : Instance) (outcome : option PyExc)
  (calls : list (Accessor * option PyExc)).

Lemma access_on_demand a outcome self :
  access a outcome self = on_demand (attr_of a) (class_of a) outcome self.
Proof. by destruct a. Qed.

Lemma attr_of_inj a a' : attr_of a = attr_of a' -> a = a'.
Proof. by destruct a, a'. Qed.

Lemma class_of_inj a a' : class_of a = class_of a' -> a = a'.
Proof. by destruct a, a'. Qed.

Lemma consistent_fresh : consistent fresh_instance.
Proof.
  split; [constructor|]. intros a c. simpl. rewrite lookup_empty.
  split; [discriminate | by intros [_ ?%elem_of_nil]].
Qed.

(** What one call does to the instance. *)
Lemma access_step a outcome self :
  snd (access a outcome self) =
    match attrs self !! attr_of a, outcome with
    | None, None =>
        mk_instance (<[attr_of a := class_of a]> (attrs self))
                    (constructed self ++ [class_of a])
    | _, _ => self
    end.
Proof.
  rewrite access_on_demand. unfold on_demand.
  by destruct (attrs self !! attr_of a), outcome.
Qed.

Lemma access_consistent a outcome self :
  consistent self -> consistent (snd (access a outcome self)).
Proof.
  intros [Hnodup Hiff]. rewrite access_step.
  destruct (attrs self !! attr_of a) as [c|] eqn:Hattr; [done|].
  destruct outcome; [done|].
  assert (Hnew : class_of a ∉ constructed self).
  { intros Hin. assert (attrs self !! attr_of a = Some (class_of a)) by by apply Hiff.
    congruence. }
  split; simpl.
  - apply NoDup_app. split; [done|]. split; [|apply NoDup_singleton].
    intros c Hc ->%list_elem_of_singleton. done.
  - intros a' c. rewrite elem_of_app, list_elem_of_singleton.
    destruct (decide (a' = a)) as [->|Hne].
    + rewrite lookup_insert_eq. split; [intros [= <-]; eauto | by intros [-> _]].
    + rewrite lookup_insert_ne by (intros ?%attr_of_inj; done).
      rewrite Hiff. split; [intros [-> ?]; eauto|].
      intros [-> [?| ?%class_of_inj]]; done.
Qed.

Lemma run_cons a outcome calls self :
  run ((a, outcome) :: calls) self = run calls (snd (access a outcome self)).
Proof. done. Qed.

Lemma run_consistent calls self :
  consistent self -> consistent (run calls self).
Proof.
  revert self. induction calls as [|[a outcome] calls IH]; intros self Hc; [done|].
  rewrite run_cons. by apply IH, access_consistent.
Qed.

Lemma access_keeps_attr a outcome self (attr : string) c :
  attrs self !! attr = Some c ->
  attrs (snd (access a outcome self)) !! attr = Some c.
Proof.
  intros Hattr. rewrite access_step.
  destruct (attrs self !! attr_of a) eqn:Ha; [done|].
  destruct outcome; [done|]. simpl.
  rewrite lookup_insert_ne; [done | congruence].
Qed.

Lemma run_keeps_attr calls self (attr : string) c :
  attrs self !! attr = Some c -> attrs (run calls self) !! attr = Some c.
Proof.
  revert self. induction calls as [|[a outcome] calls IH]; intros self Hc; [done|].
  rewrite run_cons. by apply IH, access_keeps_attr.
Qed.

Lemma run_constructed calls self a :
  consistent self ->
  class_of a ∈ constructed (run calls self)
  <-> class_of a ∈ constructed self \/ (a, None) ∈ calls.
Proof.
  revert self. induction calls as [|[a' outcome] calls IH]; intros self Hc.
  - simpl. split; [by left|]. by intros [?| ?%elem_of_nil].
  - rewrite run_cons, (IH _ (access_consistent a' outcome self Hc)).
    rewrite elem_of_cons, access_step.
    destruct (attrs self !! attr_of a') as [c|] eqn:Hattr.
    + split; [intros [?|?]; eauto|].
      intros [?|[[= -> ->]|?]]; eauto.
      left. destruct Hc as [_ Hiff]. by apply Hiff in Hattr as [_ ?].
    + destruct outcome as [e|]; simpl.
      * split; [intros [?|?]; eauto|]. intros [?|[[=]|?]]; eauto.
      * rewrite elem_of_app, list_elem_of_singleton. split.
        -- intros [[?| ->%class_of_inj]|?]; eauto.
        -- intros [?|[[= ->]|?]]; eauto.
Qed.

(** X22.  However the accessors are called and whatever their
    constructors do, no client is constructed twice, and a client attribute
    is set exactly if its client was constructed. *)
Theorem clients_constructed_at_most_once calls :
  NoDup (constructed (run calls fresh_instance))
  /\ forall a, attrs (run calls fresh_instance) !! attr_of a = Some (class_of a)
               <-> class_of a ∈ constructed (run calls fresh_instance).
Proof.
  destruct (run_consistent calls fresh_instance consistent_fresh) as [Hnodup Hiff].
  split; [done|]. intros a. rewrite Hiff. split; [by intros [_ ?] | done].
Qed.

(** X23.  Clients are loaded only when needed: a client has been
    constructed exactly if its accessor was called at a time when the
    constructor succeeds. *)
Theorem clients_constructed_on_demand calls a :
  class_of a ∈ constructed (run calls fresh_instance) <-> (a, None) ∈ calls.
Proof.
  rewrite (run_constructed calls fresh_instance a consistent_fresh). simpl.
  split; [by intros [?%elem_of_nil|?] | by right].
Qed.

(** X24.  A client once set is kept: after any further calls its accessor
    returns the same client, constructs nothing and changes nothing,
    whatever the constructor would do. *)
Theorem client_is_kept a c self calls outcome :
  attrs self !! attr_of a = Some c ->
  access a outcome (run calls self) = (Return c, run calls self).
Proof.
  intros Hattr. rewrite access_on_demand. unfold on_demand.
  by rewrite (run_keeps_attr calls self _ c Hattr).
Qed.

End ClientsFacts.

(** ** Further runs on the reference environments *)

Section MoreRuns.
#[local] Existing Instance cpython_3_11.
#[local] Existing Instance utc_host.
#[local] Existing Instance json_null_only.
#[local] Existing Instance ee2_models.
Import FinishTimes Clients.

Lemma admin_write_implies_read_witness :
  fst (@get_admin_permission quiet_collaborators alice (PyPerm READ)
         (world_of {[ Some "alice" := PyPerm WRITE ]} ∅)) = Return true.
Proof.
  apply (admin_write_implies_read alice
           (world_of {[ Some "alice" := PyPerm WRITE ]} ∅)).
  vm_compute. reflexivity.
Defined.

Lemma admin_denies_non_member_entry_witness :
  @get_admin_permission quiet_collaborators alice (PyPerm READ)
      (world_of {[ Some "alice" := PyStr "w" ]} ∅)
    = (Return false, world_of {[ Some "alice" := PyStr "w" ]} ∅)
  /\ @get_admin_permission quiet_collaborators alice (PyPerm WRITE)
      (world_of {[ Some "alice" := PyStr "w" ]} ∅)
    = (Return false, world_of {[ Some "alice" := PyStr "w" ]} ∅).
Proof.
  apply (admin_denies_non_member_entry alice
           (world_of {[ Some "alice" := PyStr "w" ]} ∅) (PyStr "w"));
    [reflexivity | discriminate].
Defined.

Lemma check_job_canceled_without_admin_check_witness :
  @check_job_canceled quiet_collaborators alice (PyStr "job-1") (PyInt 1) empty_world
    = call (JobsStatus_check_job_canceled (PyStr "job-1") (PyInt 1))
           (with_jobs_status empty_world).
Proof.
  apply (check_job_canceled_without_admin_check alice (PyStr "job-1") (PyInt 1)
           empty_world).
  reflexivity.
Defined.

Lemma check_job_canceled_admin_miss_witness :
  @check_job_canceled quiet_collaborators alice (PyStr "job-1") (PyBool true)
      empty_world
    = (Raise (UnboundLocalError "permission"), empty_world).
Proof.
  apply (check_job_canceled_admin_miss alice (PyStr "job-1") empty_world).
  reflexivity.
Defined.

Lemma gate_tests_permission_first_witness :
  @allow_job_read quiet_collaborators do_nothing alice []
      {[ "job_id" := PyStr "job-1" ]} empty_world
    = (Return PyNone,
       @mk_world quiet_collaborators ∅ tt false
         [test_job_permission_with_cache (PyStr "job-1") READ] []
         (float_lit 1610000000))
  /\ @allow_job_write strict_collaborators do_nothing alice []
      {[ "job_id" := PyStr "job-1" ]} strict_world
    = (Raise permission_denied,
       @mk_world strict_collaborators ∅ tt false
         [test_job_permission_with_cache (PyStr "job-1") WRITE] []
         (float_lit 1610000000)).
Proof.
  assert (Hid : is_None (kwargs_get {[ "job_id" := PyStr "job-1" ]} "job_id") = false)
    by (vm_compute; reflexivity).
  split.
  - destruct (@gate_tests_permission_first quiet_collaborators do_nothing alice []
                {[ "job_id" := PyStr "job-1" ]} empty_world Hid)
      as (_ & Hgranted & _).
    rewrite (Hgranted PyNone); vm_compute; reflexivity.
  - destruct (@gate_tests_permission_first strict_collaborators do_nothing alice []
                {[ "job_id" := PyStr "job-1" ]} strict_world Hid)
      as (_ & _ & Hdenied & _).
    rewrite (Hdenied permission_denied); vm_compute; reflexivity.
Defined.

Lemma gate_rejects_None_job_id_witness :
  @allow_job_read quiet_collaborators do_nothing alice [PyStr "job-1"]
      {[ "job_id" := PyNone ]} empty_world
    = (Raise missing_job_id, empty_world)
  /\ @allow_job_write quiet_collaborators do_nothing alice [PyStr "job-1"]
      {[ "job_id" := PyNone ]} empty_world
    = (Raise missing_job_id, empty_world).
Proof.
  apply (gate_rejects_None_job_id do_nothing alice [PyStr "job-1"]
           {[ "job_id" := PyNone ]} empty_world).
  reflexivity.
Defined.

Lemma default_always_returns_float_witness :
  exists f (w' : @World quiet_collaborators),
    _check_and_convert_time PyNone true empty_world = (Return (PyFloat f), w').
Proof.
  apply (default_always_returns_float PyNone empty_world). reflexivity.
Defined.

Lemma normalized_is_fixed_point_witness :
  exists f, PyFloat (float_lit 1610000000) = PyFloat f
    /\ fromtimestamp_ok f = true
    /\ forall flag (w2 : @World quiet_collaborators),
         _check_and_convert_time (PyFloat (float_lit 1610000000)) flag w2
           = (Return (PyFloat (float_lit 1610000000)), w2).
Proof.
  apply (normalized_is_fixed_point (PyInt 1610000000000)
           (PyFloat (float_lit 1610000000)) empty_world empty_world).
  vm_compute. reflexivity.
Defined.

Lemma digit_string_agrees_with_integer_witness :
  _check_and_convert_time (PyStr "12500") false empty_world
    = _check_and_convert_time (PyInt 12500) false empty_world.
Proof.
  apply (digit_string_agrees_with_integer "12500" 12500 (float_of_decimal 125 1));
    [discriminate | reflexivity | vm_compute; reflexivity].
Defined.

Lemma non_decimal_digits_fail_witness :
  _check_and_convert_time (PyStr superscript_two) false empty_world
    = (Raise (ValueError (cannot_convert (PyStr superscript_two))), empty_world).
Proof.
  apply (non_decimal_digits_fail superscript_two empty_world);
    vm_compute; reflexivity.
Defined.

Lemma numeric_strings_ignore_dateutil_witness :
  @_check_and_convert_time quiet_collaborators cpython_3_11 utc_host
      (PyStr "12.5") false empty_world
    = @_check_and_convert_time quiet_collaborators cpython_3_11
        utc_host_no_parser (PyStr "12.5") false empty_world.
Proof.
  apply (numeric_strings_ignore_dateutil utc_host utc_host_no_parser "12.5"
           false empty_world);
    [intros f; reflexivity | vm_compute; reflexivity].
Defined.

Lemma parse_bool_idempotent_witness :
  parse_bool_from_string (PyBool true) = Return (PyBool true).
Proof.
  apply (parse_bool_idempotent (PyStr "TRUE") (PyBool true)).
  vm_compute. reflexivity.
Defined.

Lemma missing_debug_is_an_error_witness :
  init_logging ∅ [] = (Raise (AttributeError PyNone "lower"), []).
Proof. apply (missing_debug_is_an_error ∅ []). reflexivity. Defined.

Lemma script_progress_lines_witness :
  fst (script (replicate 1000 (job_doc "job-1" "terminated" (Some (PyInt 0)))))
    = [progress 500; progress 1000].
Proof.
  rewrite (script_progress_lines
             (replicate 1000 (job_doc "job-1" "terminated" (Some (PyInt 0))))).
  - vm_compute. reflexivity.
  - apply Forall_replicate. vm_compute. reflexivity.
Defined.

Lemma script_stops_at_first_offender_witness :
  script [job_doc "job-1" "queued" None; job_doc "job-2" "completed" None;
          job_doc "job-3" "finished" None]
    = script [job_doc "job-1" "queued" None; job_doc "job-2" "completed" None]
  /\ exists e,
       snd (script [job_doc "job-1" "queued" None; job_doc "job-2" "completed" None;
                    job_doc "job-3" "finished" None]) = Some e
       /\ snd (loop_body 2 (job_doc "job-2" "completed" None)) = Some e.
Proof.
  apply (script_stops_at_first_offender [job_doc "job-1" "queued" None]
           (job_doc "job-2" "completed" None) [job_doc "job-3" "finished" None]).
  - repeat constructor.
  - vm_compute. reflexivity.
Defined.

Lemma client_is_kept_witness :
  access Get_condor (Some permission_denied)
      (run [(Get_workspace, None); (Get_condor, Some permission_denied)]
           (snd (get_condor None fresh_instance)))
    = (Return Condor,
       run [(Get_workspace, None); (Get_condor, Some permission_denied)]
           (snd (get_condor None fresh_instance))).
Proof.
  apply (client_is_kept Get_condor Condor (snd (get_condor None fresh_instance))).
  vm_compute. reflexivity.
Defined.

End MoreRuns.
